(** * UnityFramework: the loader of [Build/build.framework.js]

    A shallow embedding of the [UnityFramework] class: environment
    detection, the initialisation sequence, the filesystem pre-run hook,
    the WebGL context factory and the [sendMessage] call-in with its
    string marshalling.

    The engine runtime (the functions the compiled engine attaches to
    [Module]: [_malloc], [_free], [lengthBytesUTF8], [stringToUTF8], the
    three [_SendMessage*] entry points, [FS], the run-dependency hooks) is
    not part of the file.  It is a parameter of the development: an
    arbitrary state machine that answers each call by returning a number
    or by throwing.  Every call the loader makes is recorded, with its
    answer, in an event log; the properties below are stated on that log. *)

From Stdlib Require Import ZArith String List.
From Stdlib Require Import Floats.PrimFloat.
From stdpp Require Import base option list strings gmap.

Import ListNotations.
Local Open Scope Z_scope.
Local Open Scope string_scope.
Local Open Scope list_scope.

(** ** JavaScript values *)

(** What [new f()] does for a function value [f]. *)
Inductive fn : Type :=
| ArrowFn                                   (* not a constructor *)
| Class (name : string)                     (* constructs an instance *)
| ThrowingClass (name message : string).    (* its constructor throws *)

#[local] Set Warnings "-register-all".
Inductive jsval : Type :=
| JUndefined
| JNull
| JBool (b : bool)
| JNumber (x : float)
| JString (s : string)
| JBigInt (n : Z)
| JSymbol (description : string)
| JObject (props : list (string * jsval))
| JFunction (f : fn)
| JError (name message : string) (cause : option jsval).

(** [new Error(message)] and its built-in subclasses. *)
Definition Error (message : string) : jsval := JError "Error" message None.
Definition TypeError (message : string) : jsval := JError "TypeError" message None.
Definition ReferenceError (message : string) : jsval :=
  JError "ReferenceError" message None.

(** [class UnityError extends Error]: the constructor sets [name] and
    [cause]. *)
Definition UnityError (message : string) (cause : jsval) : jsval :=
  JError "UnityError" message (Some cause).

(** The [typeof] operator. *)
Definition typeof (v : jsval) : string :=
  match v with
  | JUndefined => "undefined"
  | JNull => "object"
  | JBool _ => "boolean"
  | JNumber _ => "number"
  | JString _ => "string"
  | JBigInt _ => "bigint"
  | JSymbol _ => "symbol"
  | JObject _ => "object"
  | JFunction _ => "function"
  | JError _ _ _ => "object"
  end.

(** [typeof x] of a global identifier [x]; [None] is an identifier that is
    not declared, for which [typeof] answers ["undefined"] without
    throwing. *)
Definition typeof_global (g : option jsval) : string :=
  match g with
  | None => "undefined"
  | Some v => typeof v
  end.

(** Truthiness ([if (v)], [!v], [a || b]). *)
Definition truthy (v : jsval) : bool :=
  match v with
  | JUndefined | JNull => false
  | JBool b => b
  | JNumber x => negb (PrimFloat.eqb x 0 || negb (PrimFloat.eqb x x))
  | JString s => negb (String.eqb s EmptyString)
  | JBigInt n => negb (Z.eqb n 0)
  | JSymbol _ | JObject _ | JFunction _ | JError _ _ _ => true
  end.

(** ** Outcomes, the engine interface and the event log *)

Inductive result (A : Type) : Type :=
| Ok (a : A)
| Thrown (e : jsval).
Arguments Ok {A} a.
Arguments Thrown {A} e.

(** The calls the loader makes on the engine runtime through [Module]. *)
Inductive call : Type :=
| lengthBytesUTF8 (str : string)
| _malloc (len : Z)
| Module_stringToUTF8 (str : string) (ptr len : Z)
| _SendMessage (objPtr funcPtr : Z)
| _SendMessageString (objPtr funcPtr paramPtr : Z)
| _SendMessageFloat (objPtr funcPtr : Z) (param : float)
| _free (ptr : Z)
| FS_mkdir (path : string)
| FS_mount (mountpoint : string)
| addRunDependency (id : string)
| FS_syncfs (populate : bool)
| removeRunDependency (id : string).

Inductive reply : Type :=
| Returns (v : Z)
| Throws (e : jsval).

Inductive event : Type :=
| Engine (c : call) (r : reply)
| Console (method : string) (args : list jsval).

(** ** A monad for the loader's code: state, exceptions and the log

    A computation takes the current state and yields an outcome, the new
    state and the events it emitted.  A thrown exception keeps the state
    and the log reached so far, as in JavaScript. *)

Definition M (S A : Type) : Type := S -> result A * S * list event.

Definition ret {S A} (a : A) : M S A := fun s => (Ok a, s, []).

Definition throw {S A} (e : jsval) : M S A := fun s => (Thrown e, s, []).

Definition bind {S A B} (m : M S A) (k : A -> M S B) : M S B :=
  fun s =>
    match m s with
    | (Ok a, s1, l1) => let '(r, s2, l2) := k a s1 in (r, s2, l1 ++ l2)
    | (Thrown e, s1, l1) => (Thrown e, s1, l1)
    end.

Definition get {S} : M S S := fun s => (Ok s, s, []).
Definition put {S} (s' : S) : M S unit := fun _ => (Ok tt, s', []).
Definition modify {S} (f : S -> S) : M S unit := fun s => (Ok tt, f s, []).
Definition emit {S} (e : event) : M S unit := fun s => (Ok tt, s, [e]).

(** [lift_result r]: a pure step that may throw. *)
Definition lift_result {S A} (r : result A) : M S A := fun s => (r, s, []).

(** [try { body } finally { fin }]: [fin] always runs; when it throws, its
    exception replaces the outcome of [body]. *)
Definition try_finally {S A} (body : M S A) (fin : M S unit) : M S A :=
  fun s =>
    let '(r, s1, l1) := body s in
    let '(rf, s2, l2) := fin s1 in
    (match rf with
     | Thrown e => Thrown e
     | Ok _ => r
     end, s2, l1 ++ l2).

(** [try { body } catch (error) { handler }]. *)
Definition try_catch {S A} (body : M S A) (handler : jsval -> M S A) : M S A :=
  fun s =>
    match body s with
    | (Ok a, s1, l1) => (Ok a, s1, l1)
    | (Thrown e, s1, l1) =>
        let '(r, s2, l2) := handler e s1 in (r, s2, l1 ++ l2)
    end.

Declare Scope js_scope.
Delimit Scope js_scope with js.
Notation "x <- m ;; k" := (bind m (fun x => k))
  (at level 100, m at next level, right associativity) : js_scope.
Notation "m ;; k" := (bind m (fun _ => k))
  (at level 100, right associativity) : js_scope.
Local Open Scope js_scope.

(** [console.log], [console.warn], [console.error]. *)
Definition console {S} (method : string) (args : list jsval) : M S unit :=
  emit (Console method args).

(** ** The call-in bridge: [stringToUTF8] and [sendMessage] *)

Section Bridge.

(** The engine runtime: its state and how it answers a call. *)
Context {estate : Type}.
Variable react : call -> estate -> reply * estate.

(** The state [sendMessage] runs in: the engine, and the one mutable
    local of the method, [let paramPtr], which its [finally] block reads
    after the [try] block may have assigned it. *)
Record machine : Type := Machine {
  engine : estate;
  paramPtr : Z;
}.

Definition set_paramPtr (p : Z) : M machine unit :=
  modify (fun m => {| engine := engine m; paramPtr := p |}).

(** A call on [Module]: the engine answers, the call is logged. *)
Definition callEngine (c : call) : M machine Z :=
  fun m =>
    let '(r, e') := react c (engine m) in
    (match r with
     | Returns v => Ok v
     | Throws e => Thrown e
     end,
     {| engine := e'; paramPtr := paramPtr m |},
     [Engine c r]).

(** [stringToUTF8(str)]: lines 168-174. *)
Definition stringToUTF8 (str : string) : M machine Z :=
  n <- callEngine (lengthBytesUTF8 str) ;;
  let len := n + 1 in
  ptr <- callEngine (_malloc len) ;;
  callEngine (Module_stringToUTF8 str ptr len) ;;
  ret ptr.

(** [sendMessage(gameObject, func, param)]: lines 140-161.  The three
    tests [param === undefined], [typeof param === "string"] and
    [typeof param === "number"] select the constructor of [param]. *)

(** The [try] block, lines 146-155. *)
Definition sendMessage_try (objPtr funcPtr : Z) (param : jsval)
  : M machine unit :=
  match param with
  | JUndefined =>
      callEngine (_SendMessage objPtr funcPtr) ;; ret tt
  | JString s =>
      p <- stringToUTF8 s ;;
      set_paramPtr p ;;
      callEngine (_SendMessageString objPtr funcPtr p) ;; ret tt
  | JNumber x =>
      callEngine (_SendMessageFloat objPtr funcPtr x) ;; ret tt
  | _ =>
      throw (Error ("Unsupported parameter type: " +:+ typeof param))
  end.

(** The [finally] block, lines 157-159. *)
Definition sendMessage_finally (objPtr funcPtr : Z) : M machine unit :=
  m <- get ;;
  callEngine (_free (paramPtr m)) ;;
  callEngine (_free objPtr) ;;
  callEngine (_free funcPtr) ;;
  ret tt.

Definition sendMessage (gameObject func : string) (param : jsval)
  : M machine unit :=
  funcPtr <- stringToUTF8 func ;;
  objPtr <- stringToUTF8 gameObject ;;
  set_paramPtr 0 ;;
  try_finally (sendMessage_try objPtr funcPtr param)
              (sendMessage_finally objPtr funcPtr).

(** The filesystem-mount hook pushed on [Module.preRun] by
    [setupFilesystem], lines 87-96.  [FS.syncfs] receives the callback
    [syncfs_callback]; the engine runs it when the sync completes. *)
Definition mount_hook : M machine unit :=
  callEngine (FS_mkdir "/idbfs") ;;
  callEngine (FS_mount "/idbfs") ;;
  callEngine (addRunDependency "JS_FileSystem_Mount") ;;
  callEngine (FS_syncfs true) ;;
  ret tt.

(** The callback [(err) => { ... }] of lines 92-95. *)
Definition syncfs_callback (err : jsval) : M machine unit :=
  (if truthy err
   then console "warn" [JString "IndexedDB unavailable:"; err]
   else ret tt) ;;
  callEngine (removeRunDependency "JS_FileSystem_Mount") ;;
  ret tt.

End Bridge.

Arguments Machine {estate} engine paramPtr.
Arguments engine {estate} m.
Arguments paramPtr {estate} m.

(** ** The host page: ambient globals

    The global identifiers the loader reads.  [None] is an identifier
    that is not declared: [typeof] of it answers ["undefined"], reading
    it throws a [ReferenceError]. *)
Record Ambient : Type := {
  window : option jsval;
  importScripts : option jsval;
  process : option jsval;
  document : option jsval;
  __filename : option jsval;
}.

Definition read_global (name : string) (g : option jsval) : result jsval :=
  match g with
  | Some v => Ok v
  | None => Thrown (ReferenceError (name +:+ " is not defined"))
  end.

Fixpoint lookup_prop (k : string) (props : list (string * jsval)) : jsval :=
  match props with
  | [] => JUndefined
  | (k', v) :: rest => if String.eqb k k' then v else lookup_prop k rest
  end.

(** Property read [v.k].  Own properties of objects and of errors are
    modelled; a read on [undefined] or [null] throws; on any other value
    it yields [undefined] (prototypes are not modelled). *)
Definition get_prop (v : jsval) (k : string) : result jsval :=
  match v with
  | JUndefined | JNull =>
      Thrown (TypeError ("Cannot read properties of " +:+
                         match v with JNull => "null" | _ => "undefined" end
                         +:+ " (reading '" +:+ k +:+ "')"))
  | JObject props => Ok (lookup_prop k props)
  | JError name message cause =>
      Ok (if String.eqb k "name" then JString name
          else if String.eqb k "message" then JString message
          else if String.eqb k "cause" then default JUndefined cause
          else JUndefined)
  | _ => Ok JUndefined
  end.

(** [new f()]. *)
Definition construct (f : jsval) : result jsval :=
  match f with
  | JFunction (Class name) => Ok (JObject [("constructor", JString name)])
  | JFunction (ThrowingClass name message) => Thrown (JError name message None)
  | _ => Thrown (TypeError "not a constructor")
  end.

(** ** The loader object *)

Record Environment : Type := {
  isWeb : bool;
  isWorker : bool;
  isNode : bool;
}.

(** [detectEnvironment()]: lines 20-26. *)
Definition detectEnvironment (amb : Ambient) : result Environment :=
  let web := String.eqb (typeof_global (window amb)) "object" in
  let worker := String.eqb (typeof_global (importScripts amb)) "function" in
  let node : result bool :=
    if String.eqb (typeof_global (process amb)) "object" then
      match read_global "process" (process amb) with
      | Thrown e => Thrown e
      | Ok p =>
          match get_prop p "versions" with
          | Thrown e => Thrown e
          | Ok versions =>
              if String.eqb (typeof versions) "object" then
                match get_prop versions "node" with
                | Thrown e => Thrown e
                | Ok node => Ok (String.eqb (typeof node) "string")
                end
              else Ok false
          end
      end
    else Ok false in
  match node with
  | Thrown e => Thrown e
  | Ok node => Ok {| isWeb := web; isWorker := worker; isNode := node |}
  end.

(** A promise and its settling functions: [resolve] and [reject] act on a
    pending promise only. *)
Inductive promise : Type :=
| Pending
| Fulfilled (v : jsval)
| Rejected (e : jsval).



(** The closures the loader creates, by the object they capture: the
    filesystem-mount hook of lines 87-96 and the [GL] object of lines
    106-115 both close over [Module]. *)
Inductive hook : Type :=
| MountHook (module : nat).

(** An object held by [this.Module]; an absent property is [None].
    [ready] refers to a promise of the store, [readyPromiseResolve] and
    [readyPromiseReject] are the settling functions of the promise they
    name. *)
Record ModuleObj : Type := {
  ready : option nat;
  readyPromiseResolve : option nat;
  readyPromiseReject : option nat;
  print : option string;
  printErr : option string;
  preRun : option (list hook);
  postRun : option (list hook);
  scriptDirectory : option jsval;
  GL : option nat;
  WEBAudio : option jsval;
}.

(** The object literal [{}]. *)
Definition empty_object : ModuleObj :=
  {| ready := None; readyPromiseResolve := None; readyPromiseReject := None;
     print := None; printErr := None; preRun := None; postRun := None;
     scriptDirectory := None; GL := None; WEBAudio := None |}.

(** The instance: its three fields, and the store of the objects and
    promises it has created.  [Module_ref] is [this.Module], a reference
    into [objects]: the methods that destructure [const { Module } = this]
    and then mutate it act on the shared object. *)
Record Loader : Type := {
  objects : list ModuleObj;
  promises : list promise;
  Module_ref : nat;
  isReady : bool;
  environment : Environment;
}.

Definition set_objects (objs : list ModuleObj) (this : Loader) : Loader :=
  {| objects := objs; promises := promises this; Module_ref := Module_ref this;
     isReady := isReady this; environment := environment this |}.

Definition set_Module_ref (r : nat) (this : Loader) : Loader :=
  {| objects := objects this; promises := promises this; Module_ref := r;
     isReady := isReady this; environment := environment this |}.

Definition set_isReady (b : bool) (this : Loader) : Loader :=
  {| objects := objects this; promises := promises this;
     Module_ref := Module_ref this; isReady := b;
     environment := environment this |}.

(** [document.currentScript]. *)
Definition currentScript (amb : Ambient) : result jsval :=
  match read_global "document" (document amb) with
  | Thrown e => Thrown e
  | Ok doc => get_prop doc "currentScript"
  end.

(** [getScriptDirectory()]: lines 51-58. *)
Definition getScriptDirectory (amb : Ambient) : M Loader jsval :=
  this <- get ;;
  inPage <-
    (if isWeb (environment this)
        && negb (String.eqb (typeof_global (document amb)) "undefined")
     then cs <- lift_result (currentScript amb) ;; ret (truthy cs)
     else ret false) ;;
  if inPage : bool then
    cs <- lift_result (currentScript amb) ;;
    lift_result (get_prop cs "src")
  else if isNode (environment this) then
    lift_result (read_global "__filename" (__filename amb))
  else ret (JString EmptyString).

(** [createModule(scriptDirectory)]: lines 65-78.  The executor of
    [new Promise] runs at once: it stores the two settling functions on
    the object [this.Module] refers to when [createModule] runs.  The
    new object is then allocated and its reference returned. *)
Definition createModule (dir : jsval) : M Loader nat :=
  this <- get ;;
  let pid := length (promises this) in
  let stored :=
    alter (fun o =>
             {| ready := ready o;
                readyPromiseResolve := Some pid;
                readyPromiseReject := Some pid;
                print := print o; printErr := printErr o;
                preRun := preRun o; postRun := postRun o;
                scriptDirectory := scriptDirectory o;
                GL := GL o; WEBAudio := WEBAudio o |})
          (Module_ref this) (objects this) in
  let module :=
    {| ready := Some pid;
       readyPromiseResolve := None;
       readyPromiseReject := None;
       print := Some "log";
       printErr := Some "warn";
       preRun := Some [];
       postRun := Some [];
       scriptDirectory := Some dir;
       GL := None; WEBAudio := None |} in
  put {| objects := stored ++ [module];
         promises := promises this ++ [Pending];
         Module_ref := Module_ref this;
         isReady := isReady this;
         environment := environment this |} ;;
  ret (length stored).

(** [Module.f = ...] and [Module.preRun.push(h)] on the object a
    reference names.  A reference always names an object of the store;
    the [None] branches stand for the [TypeError] a missing object or
    list would raise. *)
Definition update_object (r : nat) (f : ModuleObj -> ModuleObj) : M Loader unit :=
  this <- get ;;
  match objects this !! r with
  | Some o => put (set_objects (<[r := f o]> (objects this)) this)
  | None => throw (TypeError "Cannot set properties of undefined")
  end.

Definition push_preRun (r : nat) (h : hook) : M Loader unit :=
  this <- get ;;
  match objects this !! r with
  | Some o =>
      match preRun o with
      | Some hooks =>
          put (set_objects
                 (<[r := {| ready := ready o;
                            readyPromiseResolve := readyPromiseResolve o;
                            readyPromiseReject := readyPromiseReject o;
                            print := print o; printErr := printErr o;
                            preRun := Some (hooks ++ [h]);
                            postRun := postRun o;
                            scriptDirectory := scriptDirectory o;
                            GL := GL o; WEBAudio := WEBAudio o |}]>
                    (objects this)) this)
      | None =>
          throw (TypeError "Cannot read properties of undefined (reading 'push')")
      end
  | None => throw (TypeError "Cannot read properties of undefined (reading 'preRun')")
  end.

(** [setupFilesystem()]: lines 84-98. *)
Definition setupFilesystem : M Loader unit :=
  this <- get ;;
  let Module := Module_ref this in
  if negb (isWorker (environment this))
  then push_preRun Module (MountHook Module)
  else ret tt.

(** [setupWebGL()]: lines 104-116.  It installs the [GL] object and calls
    neither of its two functions. *)
Definition setupWebGL : M Loader unit :=
  this <- get ;;
  let Module := Module_ref this in
  update_object Module
    (fun o => {| ready := ready o;
                 readyPromiseResolve := readyPromiseResolve o;
                 readyPromiseReject := readyPromiseReject o;
                 print := print o; printErr := printErr o;
                 preRun := preRun o; postRun := postRun o;
                 scriptDirectory := scriptDirectory o;
                 GL := Some Module; WEBAudio := WEBAudio o |}).

(** A canvas, by what its [getContext(type, attributes)] does. *)
Record Canvas : Type := {
  getContext : string -> jsval -> result jsval;
}.

(** [Module.GL.createContext], lines 107-111: the function the engine
    calls when it needs a rendering context. *)
Definition createContext (canvas : Canvas) (attributes : jsval) : result jsval :=
  match getContext canvas "webgl" attributes with
  | Thrown e => Thrown e
  | Ok ctx =>
      if negb (truthy ctx)
      then Thrown (Error "WebGL context creation failed")
      else Ok ctx
  end.

(** [new (window.AudioContext || window.webkitAudioContext)()]. *)
Definition new_AudioContext (amb : Ambient) : result jsval :=
  match read_global "window" (window amb) with
  | Thrown e => Thrown e
  | Ok w =>
      match get_prop w "AudioContext" with
      | Thrown e => Thrown e
      | Ok a =>
          if truthy a then construct a
          else match get_prop w "webkitAudioContext" with
               | Thrown e => Thrown e
               | Ok b => construct b
               end
      end
  end.

(** [setupAudio()]: lines 122-132. *)
Definition setupAudio (amb : Ambient) : M Loader unit :=
  this <- get ;;
  let Module := Module_ref this in
  audioContext <- lift_result (new_AudioContext amb) ;;
  update_object Module
    (fun o => {| ready := ready o;
                 readyPromiseResolve := readyPromiseResolve o;
                 readyPromiseReject := readyPromiseReject o;
                 print := print o; printErr := printErr o;
                 preRun := preRun o; postRun := postRun o;
                 scriptDirectory := scriptDirectory o;
                 GL := GL o; WEBAudio := Some audioContext |}) ;;
  console "log" [JString "Web Audio initialized."].

(** [initialize()]: lines 32-45.  The outcome of the computation is the
    outcome of the promise the [async] method returns: [Ok] when it
    fulfils, [Thrown e] when it rejects with [e].  Each awaited step is
    a method of the loader itself, so [await] is sequencing. *)
Definition initialize (amb : Ambient) : M Loader unit :=
  try_catch
    (scriptDirectory <- getScriptDirectory amb ;;
     module <- createModule scriptDirectory ;;
     modify (set_Module_ref module) ;;
     setupFilesystem ;;
     setupWebGL ;;
     setupAudio amb ;;
     modify (set_isReady true) ;;
     console "log" [JString "Unity Framework initialized successfully."])
    (fun error =>
       console "error" [JString "Failed to initialize Unity Framework:"; error] ;;
       throw (UnityError "Initialization failed" error)).

(** The instance at the point the constructor calls [initialize]: lines
    10-12. *)
Definition fresh_loader (env : Environment) : Loader :=
  {| objects := [empty_object]; promises := []; Module_ref := 0%nat;
     isReady := false; environment := env |}.

(** [new UnityFramework()]: lines 9-14.  The constructor throws when
    [detectEnvironment] does; otherwise it starts [initialize], whose
    outcome, final state and log are returned. *)
Definition new_UnityFramework (amb : Ambient)
  : result (result unit * Loader * list event) :=
  match detectEnvironment amb with
  | Thrown e => Thrown e
  | Ok env => Ok (initialize amb (fresh_loader env))
  end.

(** The state of the readiness promise [this.Module.ready]. *)
Definition ready_state (this : Loader) : option promise :=
  o ← objects this !! Module_ref this;
  pid ← ready o;
  promises this !! pid.

(** The settling functions reachable from the loader, through
    [this.Module]. *)
Definition ready_handles (this : Loader) : option nat * option nat :=
  match objects this !! Module_ref this with
  | Some o => (readyPromiseResolve o, readyPromiseReject o)
  | None => (None, None)
  end.

(** Every hook registered on a [preRun] list of the store. *)
Definition registered_hooks (this : Loader) : list hook :=
  flat_map (fun o => default [] (preRun o)) (objects this).

(** ** Sample hosts *)

(** A page: [window] with an [AudioContext] class, a [document] whose
    [currentScript] is [null] (the loader is an ES module). *)
Definition page : Ambient :=
  {| window := Some (JObject [("AudioContext", JFunction (Class "AudioContext"))]);
     importScripts := None;
     process := None;
     document := Some (JObject [("currentScript", JNull)]);
     __filename := None |}.

(** A worker: [importScripts] is a function, there is no [window]. *)
Definition worker : Ambient :=
  {| window := None;
     importScripts := Some (JFunction ArrowFn);
     process := None;
     document := None;
     __filename := None |}.

(** A bare script host: none of the globals is declared. *)
Definition bare : Ambient :=
  {| window := None; importScripts := None; process := None;
     document := None; __filename := None |}.

(** A canvas whose [getContext] returns [null]. *)
Definition null_canvas : Canvas := {| getContext := fun _ _ => Ok JNull |}.

(** ** Observations on an event log *)

Definition is_dispatch (c : call) : bool :=
  match c with
  | _SendMessage _ _ | _SendMessageString _ _ _ | _SendMessageFloat _ _ _ => true
  | _ => false
  end.

(** The entry-point calls of a log, in order. *)
Definition dispatches (l : list event) : list call :=
  omap (fun e => match e with
                 | Engine c _ => if is_dispatch c then Some c else None
                 | _ => None
                 end) l.

(** The pointers [_malloc] returned. *)
Definition allocated (l : list event) : list Z :=
  omap (fun e => match e with
                 | Engine (_malloc _) (Returns p) => Some p
                 | _ => None
                 end) l.

(** The sizes [_malloc] was asked for. *)
Definition malloc_calls (l : list event) : list Z :=
  omap (fun e => match e with
                 | Engine (_malloc len) _ => Some len
                 | _ => None
                 end) l.

(** The pointers [_free] was called on. *)
Definition freed (l : list event) : list Z :=
  omap (fun e => match e with
                 | Engine (_free p) _ => Some p
                 | _ => None
                 end) l.

(** Pointers other than the null pointer. *)
Definition nonnull (ps : list Z) : list Z := filter (fun p => p <> 0) ps.

(** The run-dependency calls of a log. *)
Definition run_dependency_calls (l : list event) : list call :=
  omap (fun e => match e with
                 | Engine (addRunDependency id) _ => Some (addRunDependency id)
                 | Engine (removeRunDependency id) _ => Some (removeRunDependency id)
                 | _ => None
                 end) l.

Definition warnings (l : list event) : list (list jsval) :=
  omap (fun e => match e with
                 | Console "warn" args => Some args
                 | _ => None
                 end) l.

(** ** A reference engine

    A small engine used to run the loader on concrete inputs: a bump
    allocator over a heap of fixed size whose [_malloc] aborts (throws)
    when the heap is exhausted, as an Emscripten runtime built with
    aborting allocation does, and entry points that return. *)

Record refstate : Type := RefState {
  brk : Z;                       (* next free address *)
  heap_end : Z;                  (* first address past the heap *)
  pending : gmap string nat;     (* run-dependency counters *)
}.

(** Modelled from the spec: the run-dependency hooks of the engine, which
    the file only calls.  A run dependency is a named counter token:
    [addRunDependency] increments the counter of its token before the
    asynchronous work, [removeRunDependency] decrements it on completion,
    and the engine defers readiness while any token is pending. *)
Definition add_dependency (id : string) (p : gmap string nat) : gmap string nat :=
  <[id := S (default 0%nat (p !! id))]> p.

(** Modelled from the spec: the decrement of a token's counter; a token
    whose counter reaches zero is no longer pending. *)
Definition remove_dependency (id : string) (p : gmap string nat) : gmap string nat :=
  match p !! id with
  | Some (S (S n)) => <[id := S n]> p
  | _ => delete id p
  end.


(** Modelled from the spec: the counter of a token, and the condition
    under which the engine may report readiness (no token is pending). *)
Definition dependency_count (id : string) (p : gmap string nat) : nat :=
  default 0%nat (p !! id).

Definition engine_unblocked (s : refstate) : Prop :=
  forall id, dependency_count id (pending s) = 0%nat.

Definition ref_react (c : call) (s : refstate) : reply * refstate :=
  match c with
  | lengthBytesUTF8 str => (Returns (Z.of_nat (String.length str)), s)
  | _malloc len =>
      if Z.leb (brk s + len) (heap_end s)
      then (Returns (brk s),
            {| brk := brk s + len; heap_end := heap_end s; pending := pending s |})
      else (Throws (JError "RuntimeError" "Aborted(OOM)" None), s)
  | Module_stringToUTF8 _ _ len => (Returns (len - 1), s)
  | addRunDependency id =>
      (Returns 0,
       {| brk := brk s; heap_end := heap_end s;
          pending := add_dependency id (pending s) |})
  | removeRunDependency id =>
      (Returns 0,
       {| brk := brk s; heap_end := heap_end s;
          pending := remove_dependency id (pending s) |})
  | _ => (Returns 0, s)
  end.

(** A fresh engine with [size] bytes of heap starting at address 8. *)
Definition ref_engine (size : Z) : machine :=
  Machine {| brk := 8; heap_end := 8 + size; pending := ∅ |} 0.


(** The addresses of the block of [size] bytes at [ptr]. *)
Definition block (ptr size : Z) (a : Z) : Prop := ptr <= a < ptr + size.

(** ** Assumptions on the engine used by some statements *)

Definition is_marshal (c : call) : bool :=
  match c with
  | lengthBytesUTF8 _ | _malloc _ | Module_stringToUTF8 _ _ _ => true
  | _ => false
  end.

(** The marshalling primitives return (do not throw). *)
Definition marshalling_returns {estate} (react : call -> estate -> reply * estate)
  : Prop :=
  forall c s, is_marshal c = true -> exists v s', react c s = (Returns v, s').

(** [_free] returns (does not throw), on every pointer, the null pointer
    included. *)
Definition frees_return {estate} (react : call -> estate -> reply * estate)
  : Prop :=
  forall p s, exists v s', react (_free p) s = (Returns v, s').

(** The four ways a run of [stringToUTF8 str] can go, with the events of
    each. *)
Inductive marshal_run (str : string) : result Z -> list event -> Prop :=
| marshal_length_throws e :
    marshal_run str (Thrown e) [Engine (lengthBytesUTF8 str) (Throws e)]
| marshal_malloc_throws n e :
    marshal_run str (Thrown e)
      [Engine (lengthBytesUTF8 str) (Returns n);
       Engine (_malloc (n + 1)) (Throws e)]
| marshal_encode_throws n p e :
    marshal_run str (Thrown e)
      [Engine (lengthBytesUTF8 str) (Returns n);
       Engine (_malloc (n + 1)) (Returns p);
       Engine (Module_stringToUTF8 str p (n + 1)) (Throws e)]
| marshal_returns n p v :
    marshal_run str (Ok p)
      [Engine (lengthBytesUTF8 str) (Returns n);
       Engine (_malloc (n + 1)) (Returns p);
       Engine (Module_stringToUTF8 str p (n + 1)) (Returns v)].

(** ** Further vocabulary for statements *)

(** The engine calls of a log, in order. *)
Definition calls (l : list event) : list call :=
  omap (fun e => match e with
                 | Engine c _ => Some c
                 | _ => None
                 end) l.

(** The pointers an entry-point call passes to the engine. *)
Definition pointers_of (c : call) : list Z :=
  match c with
  | _SendMessage o f => [o; f]
  | _SendMessageString o f p => [o; f; p]
  | _SendMessageFloat o f _ => [o; f]
  | _ => []
  end.

(** The entry point that goes with a shape of the argument. *)
Definition dispatch_for (param : jsval) (c : call) : Prop :=
  match c, param with
  | _SendMessage _ _, JUndefined => True
  | _SendMessageString _ _ _, JString _ => True
  | _SendMessageFloat _ _ x, JNumber y => x = y
  | _, _ => False
  end.


(** Updates of one property of an object. *)
Definition store_handles (pid : nat) (o : ModuleObj) : ModuleObj :=
  {| ready := ready o;
     readyPromiseResolve := Some pid;
     readyPromiseReject := Some pid;
     print := print o; printErr := printErr o;
     preRun := preRun o; postRun := postRun o;
     scriptDirectory := scriptDirectory o;
     GL := GL o; WEBAudio := WEBAudio o |}.

Definition with_preRun (hooks : list hook) (o : ModuleObj) : ModuleObj :=
  {| ready := ready o;
     readyPromiseResolve := readyPromiseResolve o;
     readyPromiseReject := readyPromiseReject o;
     print := print o; printErr := printErr o;
     preRun := Some hooks; postRun := postRun o;
     scriptDirectory := scriptDirectory o;
     GL := GL o; WEBAudio := WEBAudio o |}.

Definition with_GL (r : nat) (o : ModuleObj) : ModuleObj :=
  {| ready := ready o;
     readyPromiseResolve := readyPromiseResolve o;
     readyPromiseReject := readyPromiseReject o;
     print := print o; printErr := printErr o;
     preRun := preRun o; postRun := postRun o;
     scriptDirectory := scriptDirectory o;
     GL := Some r; WEBAudio := WEBAudio o |}.

Definition with_WEBAudio (audio : jsval) (o : ModuleObj) : ModuleObj :=
  {| ready := ready o;
     readyPromiseResolve := readyPromiseResolve o;
     readyPromiseReject := readyPromiseReject o;
     print := print o; printErr := printErr o;
     preRun := preRun o; postRun := postRun o;
     scriptDirectory := scriptDirectory o;
     GL := GL o; WEBAudio := Some audio |}.

(** The object literal of [createModule], lines 66-76. *)
Definition new_module (pid : nat) (dir : jsval) : ModuleObj :=
  {| ready := Some pid;
     readyPromiseResolve := None;
     readyPromiseReject := None;
     print := Some "log";
     printErr := Some "warn";
     preRun := Some [];
     postRun := Some [];
     scriptDirectory := Some dir;
     GL := None; WEBAudio := None |}.

(** ** More sample engines and hosts *)

(** An engine whose allocator does not abort: [_malloc] returns the null
    pointer when the heap is exhausted. *)
Definition lenient_react (c : call) (s : refstate) : reply * refstate :=
  match c with
  | _malloc len =>
      if Z.leb (brk s + len) (heap_end s) then ref_react c s else (Returns 0, s)
  | _ => ref_react c s
  end.

(** An engine that throws on the calls [bad] selects and otherwise
    behaves as [base]. *)
Definition with_faults (bad : call -> bool)
    (base : call -> refstate -> reply * refstate)
    (c : call) (s : refstate) : reply * refstate :=
  if bad c then (Throws (Error "engine fault"), s) else base c s.

Definition is_null_free (c : call) : bool :=
  match c with
  | _free p => Z.eqb p 0
  | _ => false
  end.

Definition is_encode_of (str : string) (c : call) : bool :=
  match c with
  | Module_stringToUTF8 s _ _ => String.eqb s str
  | _ => false
  end.

Definition is_syncfs (c : call) : bool :=
  match c with
  | FS_syncfs _ => true
  | _ => false
  end.

(** Node running the file as an ES module: [process.versions.node] is a
    string, [__filename] is not declared, there is no [window]. *)
Definition node_module : Ambient :=
  {| window := None;
     importScripts := None;
     process := Some (JObject [("versions", JObject [("node", JString "20.11.0")])]);
     document := None;
     __filename := None |}.

(** A host whose [process] is [null]. *)
Definition null_process : Ambient :=
  {| window := None; importScripts := None; process := Some JNull;
     document := None; __filename := None |}.

(** A canvas that only knows the legacy context name. *)
Definition legacy_canvas : Canvas :=
  {| getContext := fun type _ =>
       if String.eqb type "experimental-webgl"
       then Ok (JObject [("legacy", JBool true)])
       else Ok JNull |}.

(** The outcome of a call on the engine, seen from the caller. *)
Definition outcome_of_reply (r : reply) : result unit :=
  match r with
  | Returns _ => Ok tt
  | Throws e => Thrown e
  end.

(** A page whose [AudioContext] constructor throws (the browser refuses
    one more audio context). *)
Definition page_audio_refused : Ambient :=
  {| window := Some (JObject [("AudioContext",
                               JFunction (ThrowingClass "NotSupportedError"
                                            "too many AudioContexts"))]);
     importScripts := None;
     process := None;
     document := Some (JObject [("currentScript", JNull)]);
     __filename := None |}.

(** A page that only has the prefixed audio class. *)
Definition webkit_page : Ambient :=
  {| window := Some (JObject [("webkitAudioContext",
                               JFunction (Class "webkitAudioContext"))]);
     importScripts := None;
     process := None;
     document := Some (JObject [("currentScript", JNull)]);
     __filename := None |}.

(** The environment of a page. *)
Definition page_environment : Environment :=
  {| isWeb := true; isWorker := false; isNode := false |}.

(** The blocks a log shows as allocated: the pointer and the size of
    every [_malloc] that returned a pointer other than null. *)
Definition allocated_blocks (l : list event) : list (Z * Z) :=
  omap (fun e => match e with
                 | Engine (_malloc size) (Returns p) =>
                     if Z.eqb p 0 then None else Some (p, size)
                 | _ => None
                 end) l.

(** The ranges handed to the encoder: the pointer and the byte budget of
    every [Module.stringToUTF8] call. *)
Definition encoder_ranges (l : list event) : list (Z * Z) :=
  omap (fun e => match e with
                 | Engine (Module_stringToUTF8 _ p budget) _ => Some (p, budget)
                 | _ => None
                 end) l.

(** ** Facts about the monad *)

Lemma bind_Ok {S A B} (m : M S A) (k : A -> M S B) s a s1 l1 :
  m s = (Ok a, s1, l1) ->
  bind m k s = (let '(r, s2, l2) := k a s1 in (r, s2, l1 ++ l2)).
Proof. intros H. unfold bind. now rewrite H. Qed.

Lemma bind_Thrown {S A B} (m : M S A) (k : A -> M S B) s e s1 l1 :
  m s = (Thrown e, s1, l1) ->
  bind m k s = (Thrown e, s1, l1).
Proof. intros H. unfold bind. now rewrite H. Qed.

(** ** Marshalling: [stringToUTF8] *)

Section BridgeFacts.

Context {estate : Type}.
Variable react : call -> estate -> reply * estate.

Lemma stringToUTF8_run str m :
  marshal_run str (stringToUTF8 react str m).1.1 (stringToUTF8 react str m).2
  /\ paramPtr (stringToUTF8 react str m).1.2 = paramPtr m.
Proof.
  unfold stringToUTF8, bind, callEngine, ret. cbn.
  destruct (react (lengthBytesUTF8 str) (engine m)) as [[n|e] s1]; cbn;
    [|split; [constructor|reflexivity]].
  destruct (react (_malloc (n + 1)) s1) as [[p|e] s2]; cbn;
    [|split; [constructor|reflexivity]].
  destruct (react (Module_stringToUTF8 str p (n + 1)) s2) as [[v|e] s3]; cbn;
    split; (constructor || reflexivity).
Qed.

(** A run of [stringToUTF8] that returns: its log and its state. *)
Lemma stringToUTF8_Ok str m p m' l :
  stringToUTF8 react str m = (Ok p, m', l) ->
  (exists n v, l = [Engine (lengthBytesUTF8 str) (Returns n);
                    Engine (_malloc (n + 1)) (Returns p);
                    Engine (Module_stringToUTF8 str p (n + 1)) (Returns v)])
  /\ paramPtr m' = paramPtr m.
Proof.
  intros H. destruct (stringToUTF8_run str m) as [Hr Hp].
  rewrite H in Hr, Hp. cbn in Hr, Hp. split; [|exact Hp].
  inversion Hr; subst. eauto.
Qed.

(** What a returning run of [stringToUTF8] leaves in the log: one
    allocation, no free, no dispatch. *)
Lemma stringToUTF8_Ok_log str m p m' l :
  stringToUTF8 react str m = (Ok p, m', l) ->
  dispatches l = [] /\ freed l = [] /\ allocated l = [p]
  /\ length (malloc_calls l) = 1%nat.
Proof.
  intros H. destruct (stringToUTF8_Ok _ _ _ _ _ H) as [(n & v & ->) _].
  repeat split.
Qed.

(** [stringToUTF8] frees nothing and dispatches nothing, however it
    ends. *)
Lemma stringToUTF8_log_quiet str m :
  freed (stringToUTF8 react str m).2 = []
  /\ dispatches (stringToUTF8 react str m).2 = [].
Proof.
  destruct (stringToUTF8_run str m) as [Hr _].
  inversion Hr; split; reflexivity.
Qed.

(** C10. [stringToUTF8 str] always starts by asking the engine for the
    byte length of [str]; if that call throws, nothing is allocated.
    Once it returns [n], [_malloc] is called, once, for exactly [n + 1]
    bytes; once [_malloc] returns [ptr], the encoder is called on [str]
    with that pointer and that same number [n + 1] as its byte budget,
    and [ptr] is what [stringToUTF8] returns when the encoder does.
    For a pointer other than null the range handed to the encoder is
    therefore exactly the block this call allocated, and the terminator,
    [n] bytes after [ptr], lies inside it.  (On the null pointer the
    encoder is handed a range that is no allocated block.) *)
Theorem stringToUTF8_buffer str m :
  let run := stringToUTF8 react str m in
  hd_error (calls run.2) = Some (lengthBytesUTF8 str)
  /\ (forall e s1,
        react (lengthBytesUTF8 str) (engine m) = (Throws e, s1) ->
        run.1.1 = Thrown e /\ calls run.2 = [lengthBytesUTF8 str])
  /\ (forall n s1,
        react (lengthBytesUTF8 str) (engine m) = (Returns n, s1) ->
        malloc_calls run.2 = [n + 1]
        /\ (forall e s2,
              react (_malloc (n + 1)) s1 = (Throws e, s2) ->
              run.1.1 = Thrown e /\ encoder_ranges run.2 = [])
        /\ (forall ptr s2,
              react (_malloc (n + 1)) s1 = (Returns ptr, s2) ->
              calls run.2 = [lengthBytesUTF8 str; _malloc (n + 1);
                             Module_stringToUTF8 str ptr (n + 1)]
              /\ allocated run.2 = [ptr]
              /\ encoder_ranges run.2 = [(ptr, n + 1)]
              /\ allocated_blocks run.2
                 = (if Z.eqb ptr 0 then [] else [(ptr, n + 1)])
              /\ (ptr <> 0 ->
                  encoder_ranges run.2 = allocated_blocks run.2
                  /\ (0 <= n -> block ptr (n + 1) (ptr + n)))
              /\ (forall v s3,
                    react (Module_stringToUTF8 str ptr (n + 1)) s2
                    = (Returns v, s3) ->
                    run.1.1 = Ok ptr)
              /\ (forall e s3,
                    react (Module_stringToUTF8 str ptr (n + 1)) s2
                    = (Throws e, s3) ->
                    run.1.1 = Thrown e))).
Proof.
  cbn zeta. unfold stringToUTF8, bind, callEngine, ret. cbn.
  destruct (react (lengthBytesUTF8 str) (engine m)) as [[n|e] s1] eqn:E1; cbn;
    [destruct (react (_malloc (n + 1)) s1) as [[p|e] s2] eqn:E2; cbn;
     [destruct (react (Module_stringToUTF8 str p (n + 1)) s2)
        as [[v|e] s3] eqn:E3; cbn|]|].
  all: split; [reflexivity|].
  all: split; [intros e' s1' H; simplify_eq; try (split; reflexivity)|].
  all: intros n' s1' H; simplify_eq.
  all: split; [reflexivity|].
  all: split;
    [intros e' s2' H; rewrite E2 in H; simplify_eq; try (split; reflexivity)|].
  all: intros ptr s2' H; rewrite E2 in H; simplify_eq.
  all: split; [reflexivity|]; split; [reflexivity|]; split; [reflexivity|].
  all: split; [destruct (Z.eqb ptr 0); reflexivity|]; split.
  all: try (intros Hp; destruct (Z.eqb_spec ptr 0) as [->|_]; [contradiction|];
            split; [reflexivity|]; unfold block; lia).
  all: split; intros x s3' H; rewrite E3 in H; simplify_eq; reflexivity.
Qed.

End BridgeFacts.

(** ** The call-in: [sendMessage] *)

Ltac engine_step react :=
  match goal with
  | |- context [react ?c ?s] =>
      let s' := fresh "s" in
      destruct (react c s) as [[?|?] s'] eqn:?; cbn
  end.

Section SendMessageFacts.

Context {estate : Type}.
Variable react : call -> estate -> reply * estate.

(** [sendMessage] once both marshalling calls have returned: what is
    left is the [try] statement, run with [paramPtr = 0]. *)
Lemma sendMessage_marshalled gameObject func param m funcPtr m1 l1 objPtr m2 l2 :
  stringToUTF8 react func m = (Ok funcPtr, m1, l1) ->
  stringToUTF8 react gameObject m1 = (Ok objPtr, m2, l2) ->
  let run := try_finally (sendMessage_try react objPtr funcPtr param)
                         (sendMessage_finally react objPtr funcPtr)
                         (Machine (engine m2) 0) in
  (sendMessage react gameObject func param m).1.1 = run.1.1
  /\ (sendMessage react gameObject func param m).2 = l1 ++ l2 ++ run.2.
Proof.
  intros H1 H2. unfold sendMessage.
  rewrite (bind_Ok _ _ _ _ _ _ H1). cbn beta.
  rewrite (bind_Ok _ _ _ _ _ _ H2). cbn beta.
  unfold bind at 1. unfold set_paramPtr, modify. cbn.
  destruct (try_finally _ _ _) as [[r m3] l3]. cbn. auto.
Qed.

Lemma try_finally_log {S A} (body : M S A) (fin : M S unit) s :
  (try_finally body fin s).2 = (body s).2 ++ (fin (body s).1.2).2.
Proof.
  unfold try_finally. destruct (body s) as [[r s1] l1]. cbn.
  destruct (fin s1) as [[rf s2] l2]. reflexivity.
Qed.

Lemma try_finally_result {S A} (body : M S A) (fin : M S unit) s :
  (fin (body s).1.2).1.1 = Ok tt ->
  (try_finally body fin s).1.1 = (body s).1.1.
Proof.
  unfold try_finally. destruct (body s) as [[r s1] l1]. cbn.
  destruct (fin s1) as [[rf s2] l2]. cbn. now intros ->.
Qed.

(** The [try] block on each accepted shape of the argument. *)
Lemma sendMessage_try_absent objPtr funcPtr m :
  exists r,
    (sendMessage_try react objPtr funcPtr JUndefined m).2
    = [Engine (_SendMessage objPtr funcPtr) r]
    /\ paramPtr (sendMessage_try react objPtr funcPtr JUndefined m).1.2
       = paramPtr m.
Proof.
  unfold sendMessage_try, bind, callEngine, ret. cbn.
  engine_step react; eauto.
Qed.

Lemma sendMessage_try_number objPtr funcPtr x m :
  exists r,
    (sendMessage_try react objPtr funcPtr (JNumber x) m).2
    = [Engine (_SendMessageFloat objPtr funcPtr x) r]
    /\ paramPtr (sendMessage_try react objPtr funcPtr (JNumber x) m).1.2
       = paramPtr m.
Proof.
  unfold sendMessage_try, bind, callEngine, ret. cbn.
  engine_step react; eauto.
Qed.

Lemma sendMessage_try_string objPtr funcPtr s m p m3 l3 :
  stringToUTF8 react s m = (Ok p, m3, l3) ->
  exists r,
    (sendMessage_try react objPtr funcPtr (JString s) m).2
    = l3 ++ [Engine (_SendMessageString objPtr funcPtr p) r]
    /\ paramPtr (sendMessage_try react objPtr funcPtr (JString s) m).1.2 = p.
Proof.
  intros H. unfold sendMessage_try.
  rewrite (bind_Ok _ _ _ _ _ _ H). cbn beta.
  unfold bind, set_paramPtr, modify, callEngine, ret. cbn.
  engine_step react; eauto.
Qed.

(** On any other shape the [try] block throws at once, without a call
    to the engine. *)
Lemma sendMessage_try_unsupported objPtr funcPtr param m :
  param <> JUndefined ->
  typeof param <> "string" ->
  typeof param <> "number" ->
  sendMessage_try react objPtr funcPtr param m
  = (Thrown (Error ("Unsupported parameter type: " +:+ typeof param)), m, []).
Proof.
  intros Hu Hs Hn. destruct param; cbn in *; try reflexivity; congruence.
Qed.

(** The [finally] block dispatches nothing, allocates nothing, and
    starts by freeing [paramPtr]. *)
Lemma sendMessage_finally_log objPtr funcPtr m :
  let l := (sendMessage_finally react objPtr funcPtr m).2 in
  dispatches l = [] /\ malloc_calls l = [] /\ allocated l = []
  /\ hd_error (freed l) = Some (paramPtr m).
Proof.
  unfold sendMessage_finally, bind, get, callEngine, ret. cbn.
  repeat engine_step react; auto.
Qed.

(** When [_free] returns, the [finally] block frees the three pointer
    slots, in the order [paramPtr], [objPtr], [funcPtr], and completes. *)
Lemma sendMessage_finally_frees objPtr funcPtr m :
  frees_return react ->
  (sendMessage_finally react objPtr funcPtr m).1.1 = Ok tt
  /\ freed (sendMessage_finally react objPtr funcPtr m).2
     = [paramPtr m; objPtr; funcPtr].
Proof.
  intros Hf.
  unfold sendMessage_finally, bind, get, callEngine, ret. cbn.
  destruct (Hf (paramPtr m) (engine m)) as (v1 & s1 & ->). cbn.
  destruct (Hf objPtr s1) as (v2 & s2 & ->). cbn.
  destruct (Hf funcPtr s2) as (v3 & s3 & ->). cbn. auto.
Qed.

Lemma dispatches_app l1 l2 : dispatches (l1 ++ l2) = dispatches l1 ++ dispatches l2.
Proof. apply omap_app. Qed.

Lemma freed_app l1 l2 : freed (l1 ++ l2) = freed l1 ++ freed l2.
Proof. apply omap_app. Qed.

Lemma allocated_app l1 l2 : allocated (l1 ++ l2) = allocated l1 ++ allocated l2.
Proof. apply omap_app. Qed.

Lemma malloc_calls_app l1 l2 :
  malloc_calls (l1 ++ l2) = malloc_calls l1 ++ malloc_calls l2.
Proof. apply omap_app. Qed.

(** C1. Once the target and the method are marshalled, [sendMessage]
    dispatches exactly one entry point, chosen by the shape of the
    argument: [_SendMessage objPtr funcPtr] when it is absent,
    [_SendMessageFloat objPtr funcPtr x] with the number [x] itself when
    it is a number, and [_SendMessageString objPtr funcPtr paramPtr]
    with the marshalled argument when it is a string. *)
Theorem sendMessage_dispatch gameObject func m funcPtr m1 l1 objPtr m2 l2 :
  stringToUTF8 react func m = (Ok funcPtr, m1, l1) ->
  stringToUTF8 react gameObject m1 = (Ok objPtr, m2, l2) ->
  dispatches (sendMessage react gameObject func JUndefined m).2
    = [_SendMessage objPtr funcPtr]
  /\ (forall x,
        dispatches (sendMessage react gameObject func (JNumber x) m).2
        = [_SendMessageFloat objPtr funcPtr x])
  /\ (forall s p m3 l3,
        stringToUTF8 react s (Machine (engine m2) 0) = (Ok p, m3, l3) ->
        dispatches (sendMessage react gameObject func (JString s) m).2
        = [_SendMessageString objPtr funcPtr p]).
Proof.
  intros H1 H2.
  destruct (stringToUTF8_Ok react _ _ _ _ _ H1) as [(n1 & v1 & E1) _].
  destruct (stringToUTF8_Ok react _ _ _ _ _ H2) as [(n2 & v2 & E2) _].
  repeat split; intros.
  - destruct (sendMessage_marshalled _ _ JUndefined _ _ _ _ _ _ _ H1 H2) as [_ ->].
    rewrite try_finally_log.
    destruct (sendMessage_try_absent objPtr funcPtr (Machine (engine m2) 0))
      as (r & -> & _).
    rewrite !dispatches_app.
    destruct (sendMessage_finally_log objPtr funcPtr
                (sendMessage_try react objPtr funcPtr JUndefined
                   (Machine (engine m2) 0)).1.2) as (-> & _).
    subst l1 l2. reflexivity.
  - destruct (sendMessage_marshalled _ _ (JNumber x) _ _ _ _ _ _ _ H1 H2) as [_ ->].
    rewrite try_finally_log.
    destruct (sendMessage_try_number objPtr funcPtr x (Machine (engine m2) 0))
      as (r & -> & _).
    rewrite !dispatches_app.
    destruct (sendMessage_finally_log objPtr funcPtr
                (sendMessage_try react objPtr funcPtr (JNumber x)
                   (Machine (engine m2) 0)).1.2) as (-> & _).
    subst l1 l2. reflexivity.
  - destruct (sendMessage_marshalled _ _ (JString s) _ _ _ _ _ _ _ H1 H2) as [_ ->].
    rewrite try_finally_log.
    destruct (sendMessage_try_string objPtr funcPtr _ _ _ _ _ H) as (r & -> & _).
    destruct (stringToUTF8_Ok react _ _ _ _ _ H) as [(n3 & v3 & E3) _].
    rewrite !dispatches_app.
    destruct (sendMessage_finally_log objPtr funcPtr
                (sendMessage_try react objPtr funcPtr (JString s)
                   (Machine (engine m2) 0)).1.2) as (-> & _).
    subst l1 l2 l3. reflexivity.
Qed.

Lemma try_finally_fails {S A} (body : M S A) (fin : M S unit) s e :
  (body s).1.1 = Thrown e ->
  exists e', (try_finally body fin s).1.1 = Thrown e'.
Proof.
  unfold try_finally. destruct (body s) as [[r s1] l1]. cbn. intros ->.
  destruct (fin s1) as [[[[]|e'] s2] l2]; cbn; eauto.
Qed.

(** C3. When the argument is neither absent, a string nor a number,
    [sendMessage] fails without dispatching any of the three entry
    points; with a [_free] that returns, the error is the
    unsupported-type error and the target and method buffers are
    released. *)
Theorem sendMessage_unsupported gameObject func param m funcPtr m1 l1 objPtr m2 l2 :
  param <> JUndefined ->
  typeof param <> "string" ->
  typeof param <> "number" ->
  stringToUTF8 react func m = (Ok funcPtr, m1, l1) ->
  stringToUTF8 react gameObject m1 = (Ok objPtr, m2, l2) ->
  let run := sendMessage react gameObject func param m in
  (exists e, run.1.1 = Thrown e)
  /\ dispatches run.2 = []
  /\ (frees_return react ->
      run.1.1 = Thrown (Error ("Unsupported parameter type: " +:+ typeof param))
      /\ freed run.2 = [0; objPtr; funcPtr]).
Proof.
  intros Hu Hs Hn H1 H2 run.
  destruct (stringToUTF8_Ok react _ _ _ _ _ H1) as [(n1 & v1 & E1) _].
  destruct (stringToUTF8_Ok react _ _ _ _ _ H2) as [(n2 & v2 & E2) _].
  destruct (sendMessage_marshalled _ _ param _ _ _ _ _ _ _ H1 H2) as [Er El].
  fold run in Er, El. rewrite Er, El. clear Er El run.
  pose proof (sendMessage_try_unsupported objPtr funcPtr param
                (Machine (engine m2) 0) Hu Hs Hn) as Et.
  split; [|split].
  - eapply try_finally_fails. rewrite Et. reflexivity.
  - rewrite try_finally_log, Et. cbn [fst snd].
    rewrite !dispatches_app.
    destruct (sendMessage_finally_log objPtr funcPtr (Machine (engine m2) 0))
      as (-> & _).
    subst l1 l2. reflexivity.
  - intros Hf.
    destruct (sendMessage_finally_frees objPtr funcPtr (Machine (engine m2) 0) Hf)
      as [Hr Hl].
    split.
    + rewrite try_finally_result; rewrite Et; [reflexivity|exact Hr].
    + rewrite try_finally_log, Et. cbn [fst snd].
      rewrite !freed_app, Hl. subst l1 l2. reflexivity.
Qed.

(** C9. When the argument is absent or a number, [sendMessage] makes two
    allocations, for the method and the target, and its [finally] block
    starts by freeing the unused argument slot, which holds 0; with a
    [_free] that returns, [_free] is called three times, on 0, on the
    target buffer and on the method buffer. *)
Theorem sendMessage_frees_null_slot gameObject func param m funcPtr m1 l1 objPtr m2 l2 :
  param = JUndefined \/ typeof param = "number" ->
  stringToUTF8 react func m = (Ok funcPtr, m1, l1) ->
  stringToUTF8 react gameObject m1 = (Ok objPtr, m2, l2) ->
  let log := (sendMessage react gameObject func param m).2 in
  length (malloc_calls log) = 2%nat
  /\ allocated log = [funcPtr; objPtr]
  /\ hd_error (freed log) = Some 0
  /\ (frees_return react ->
      length (freed log) = 3%nat /\ freed log = [0; objPtr; funcPtr]).
Proof.
  intros Hshape H1 H2 log.
  destruct (stringToUTF8_Ok react _ _ _ _ _ H1) as [(n1 & v1 & E1) _].
  destruct (stringToUTF8_Ok react _ _ _ _ _ H2) as [(n2 & v2 & E2) _].
  destruct (sendMessage_marshalled _ _ param _ _ _ _ _ _ _ H1 H2) as [_ El].
  fold log in El. rewrite El. clear El log.
  rewrite try_finally_log.
  assert (exists c r,
    (sendMessage_try react objPtr funcPtr param (Machine (engine m2) 0)).2
    = [Engine c r] /\ is_dispatch c = true
    /\ paramPtr (sendMessage_try react objPtr funcPtr param
                   (Machine (engine m2) 0)).1.2 = 0) as (c & r & Et & Hc & Hp).
  { destruct Hshape as [->|Hn].
    - destruct (sendMessage_try_absent objPtr funcPtr (Machine (engine m2) 0))
        as (r & E & P). eauto 6.
    - destruct param; try discriminate Hn.
      destruct (sendMessage_try_number objPtr funcPtr x (Machine (engine m2) 0))
        as (r & E & P). eauto 6. }
  rewrite Et.
  set (m3 := (sendMessage_try react objPtr funcPtr param (Machine (engine m2) 0)).1.2)
    in *.
  destruct (sendMessage_finally_log objPtr funcPtr m3) as (_ & Hm & Ha & Hh).
  rewrite Hp in Hh.
  rewrite !malloc_calls_app, !allocated_app, !freed_app, Hm, Ha.
  assert (freed [Engine c r] = []) as ->
      by (destruct c; try discriminate Hc; reflexivity).
  assert (allocated [Engine c r] = []) as ->
      by (destruct c; try discriminate Hc; reflexivity).
  assert (malloc_calls [Engine c r] = []) as ->
      by (destruct c; try discriminate Hc; reflexivity).
  subst l1 l2. cbn [freed allocated malloc_calls omap app length].
  repeat split; try assumption.
  - destruct (sendMessage_finally_frees objPtr funcPtr m3 H) as [_ ->].
    reflexivity.
  - destruct (sendMessage_finally_frees objPtr funcPtr m3 H) as [_ ->].
    now rewrite Hp.
Qed.

(** The argument slot matters: if [_free] throws on the null pointer,
    the [finally] block stops there and the two buffers are not freed. *)
Lemma sendMessage_null_free_throws gameObject func param m funcPtr m1 l1 objPtr m2 l2 :
  (forall s, exists e s', react (_free 0) s = (Throws e, s')) ->
  param = JUndefined \/ typeof param = "number" ->
  stringToUTF8 react func m = (Ok funcPtr, m1, l1) ->
  stringToUTF8 react gameObject m1 = (Ok objPtr, m2, l2) ->
  let run := sendMessage react gameObject func param m in
  (exists e, run.1.1 = Thrown e) /\ freed run.2 = [0].
Proof.
  intros Hnull Hshape H1 H2 run.
  destruct (stringToUTF8_Ok_log react _ _ _ _ _ H1) as (_ & Hf1 & _).
  destruct (stringToUTF8_Ok_log react _ _ _ _ _ H2) as (_ & Hf2 & _).
  destruct (sendMessage_marshalled _ _ param _ _ _ _ _ _ _ H1 H2) as [Er El].
  fold run in Er, El. rewrite Er, El. clear Er El run.
  set (m0 := Machine (engine m2) 0).
  assert (exists c r,
    (sendMessage_try react objPtr funcPtr param m0).2 = [Engine c r]
    /\ is_dispatch c = true
    /\ paramPtr (sendMessage_try react objPtr funcPtr param m0).1.2 = 0)
    as (c & r & Et & Hc & Hp).
  { destruct Hshape as [->|Hn].
    - destruct (sendMessage_try_absent objPtr funcPtr m0) as (r & E & P). eauto 6.
    - destruct param; try discriminate Hn.
      destruct (sendMessage_try_number objPtr funcPtr x m0) as (r & E & P).
      eauto 6. }
  rewrite try_finally_log, Et, !freed_app, Hf1, Hf2.
  assert (freed [Engine c r] = []) as ->
      by (destruct c; try discriminate Hc; reflexivity).
  unfold try_finally.
  destruct (sendMessage_try react objPtr funcPtr param m0) as [[rt mt] lt].
  cbn [fst snd] in *.
  unfold sendMessage_finally, bind, get, callEngine, ret. cbn. rewrite Hp.
  destruct (Hnull (engine mt)) as (e & s' & ->). cbn. eauto.
Qed.

(** X9. The leak: when the method name is marshalled and the marshalling
    of the target throws, [sendMessage] propagates the error with the
    first buffer allocated and no call to [_free]. *)
Lemma sendMessage_marshalling_failure_leaks
      gameObject func param m funcPtr m1 l1 e m2 l2 :
  stringToUTF8 react func m = (Ok funcPtr, m1, l1) ->
  stringToUTF8 react gameObject m1 = (Thrown e, m2, l2) ->
  let run := sendMessage react gameObject func param m in
  run.1.1 = Thrown e /\ In funcPtr (allocated run.2) /\ freed run.2 = [].
Proof.
  intros H1 H2. cbn zeta. unfold sendMessage.
  rewrite (bind_Ok _ _ _ _ _ _ H1). cbn beta.
  rewrite (bind_Thrown _ _ _ _ _ _ H2). cbn [fst snd].
  destruct (stringToUTF8_Ok_log react _ _ _ _ _ H1) as (_ & Hf1 & Ha1 & _).
  pose proof (stringToUTF8_log_quiet react gameObject m1) as [Hf2 _].
  rewrite H2 in Hf2. cbn [snd] in Hf2.
  rewrite allocated_app, freed_app, Hf1, Hf2, Ha1.
  repeat split. now left.
Qed.

(** [stringToUTF8] returns when the marshalling primitives do. *)
Lemma stringToUTF8_returns str m :
  marshalling_returns react ->
  exists p m' l, stringToUTF8 react str m = (Ok p, m', l).
Proof.
  intros Hm. unfold stringToUTF8, bind, callEngine, ret. cbn.
  destruct (Hm (lengthBytesUTF8 str) (engine m) eq_refl) as (n & s1 & ->). cbn.
  destruct (Hm (_malloc (n + 1)) s1 eq_refl) as (p & s2 & ->). cbn.
  destruct (Hm (Module_stringToUTF8 str p (n + 1)) s2 eq_refl) as (v & s3 & ->).
  cbn. eauto.
Qed.

(** X8. Resource discipline of [sendMessage] when marshalling cannot
    fail: whatever the shape of the argument and whatever the entry
    point does (return or throw), the non-null pointers freed are the
    non-null pointers allocated. *)
Lemma sendMessage_frees_allocated gameObject func param m :
  marshalling_returns react ->
  frees_return react ->
  let log := (sendMessage react gameObject func param m).2 in
  nonnull (freed log) ≡ₚ nonnull (allocated log).
Proof.
  intros Hm Hf log.
  destruct (stringToUTF8_returns func m Hm) as (funcPtr & m1 & l1 & H1).
  destruct (stringToUTF8_returns gameObject m1 Hm) as (objPtr & m2 & l2 & H2).
  destruct (stringToUTF8_Ok react _ _ _ _ _ H1) as [(n1 & v1 & E1) _].
  destruct (stringToUTF8_Ok react _ _ _ _ _ H2) as [(n2 & v2 & E2) _].
  destruct (sendMessage_marshalled _ _ param _ _ _ _ _ _ _ H1 H2) as [_ El].
  fold log in El. rewrite El. clear El log.
  rewrite try_finally_log.
  set (m0 := Machine (engine m2) 0).
  assert (exists pp,
    paramPtr (sendMessage_try react objPtr funcPtr param m0).1.2 = pp
    /\ freed (sendMessage_try react objPtr funcPtr param m0).2 = []
    /\ nonnull (allocated (sendMessage_try react objPtr funcPtr param m0).2)
       = nonnull [pp]) as (pp & Hp & Hfr & Hal).
  { destruct param;
      try (rewrite sendMessage_try_unsupported by (cbn; congruence);
           exists 0; now auto).
    - destruct (sendMessage_try_absent objPtr funcPtr m0) as (r & -> & ->).
      exists 0. auto.
    - destruct (sendMessage_try_number objPtr funcPtr x m0) as (r & -> & ->).
      exists 0. auto.
    - destruct (stringToUTF8_returns s m0 Hm) as (p & m3 & l3 & H3).
      destruct (stringToUTF8_Ok react _ _ _ _ _ H3) as [(n3 & v3 & E3) _].
      destruct (sendMessage_try_string objPtr funcPtr _ _ _ _ _ H3)
        as (r & -> & ->).
      exists p. subst l3. auto. }
  set (m3 := (sendMessage_try react objPtr funcPtr param m0).1.2) in *.
  set (ltry := (sendMessage_try react objPtr funcPtr param m0).2) in *.
  destruct (sendMessage_finally_log objPtr funcPtr m3) as (_ & _ & Ha & _).
  destruct (sendMessage_finally_frees objPtr funcPtr m3 Hf) as [_ Hl].
  rewrite !freed_app, !allocated_app, Hfr, Ha, Hl, Hp.
  destruct (stringToUTF8_Ok_log react _ _ _ _ _ H1) as (_ & -> & -> & _).
  destruct (stringToUTF8_Ok_log react _ _ _ _ _ H2) as (_ & -> & -> & _).
  rewrite app_nil_r. cbn [app].
  unfold nonnull in *.
  change (funcPtr :: objPtr :: allocated ltry)
    with ([funcPtr; objPtr] ++ allocated ltry).
  rewrite filter_app, Hal, <- filter_app.
  apply filter_Permutation.
  change [pp; objPtr; funcPtr] with (reverse ([funcPtr; objPtr] ++ [pp])).
  apply reverse_Permutation.
Qed.

End SendMessageFacts.

(** ** [sendMessage] on the reference engine *)

Lemma ref_frees_return : frees_return ref_react.
Proof. intros p s. eexists _, _. reflexivity. Qed.

(** Marshalling ["Player"] on the reference engine: 7 bytes at address
    8, the same range for the encoder, the terminator at address 14. *)
Lemma stringToUTF8_buffer_witness :
  let run := stringToUTF8 ref_react "Player" (ref_engine 64) in
  calls run.2 = [lengthBytesUTF8 "Player"; _malloc 7;
                 Module_stringToUTF8 "Player" 8 7]
  /\ encoder_ranges run.2 = allocated_blocks run.2
  /\ allocated_blocks run.2 = [(8, 7)]
  /\ block 8 7 14
  /\ run.1.1 = Ok 8.
Proof.
  pose proof (stringToUTF8_buffer ref_react "Player" (ref_engine 64))
    as (_ & _ & H).
  destruct (H 6 _ eq_refl) as (_ & _ & Hm).
  destruct (Hm 8 _ eq_refl) as (Hc & _ & _ & Hb & Hn & Hr & _).
  destruct (Hn ltac:(discriminate)) as [He Ht].
  split; [exact Hc|]. split; [exact He|]. split; [exact Hb|].
  split; [exact (Ht ltac:(discriminate))|]. exact (Hr _ _ eq_refl).
Defined.

(** The scenario [sendMessage("Player", "SetScore", 42)]: the method is
    marshalled at address 8, the target at 17, and the float entry point
    receives 42. *)
Lemma sendMessage_dispatch_witness :
  dispatches (sendMessage ref_react "Player" "SetScore" (JNumber 42)
                (ref_engine 64)).2
  = [_SendMessageFloat 17 8 42]
  /\ dispatches (sendMessage ref_react "Player" "SetScore" JUndefined
                   (ref_engine 64)).2
     = [_SendMessage 17 8]
  /\ dispatches (sendMessage ref_react "Player" "SetName" (JString "Ann")
                   (ref_engine 64)).2
     = [_SendMessageString 16 8 23].
Proof.
  split; [|split].
  - exact (proj1 (proj2 (sendMessage_dispatch ref_react "Player" "SetScore"
                           (ref_engine 64) 8 _ _ 17 _ _ eq_refl eq_refl))
             42%float).
  - exact (proj1 (sendMessage_dispatch ref_react "Player" "SetScore"
                    (ref_engine 64) 8 _ _ 17 _ _ eq_refl eq_refl)).
  - exact (proj2 (proj2 (sendMessage_dispatch ref_react "Player" "SetName"
                           (ref_engine 64) 8 _ _ 16 _ _ eq_refl eq_refl))
             "Ann" 23 _ _ eq_refl).
Defined.

Lemma sendMessage_unsupported_witness :
  let run := sendMessage ref_react "Player" "SetScore" (JBool true)
               (ref_engine 64) in
  (exists e, run.1.1 = Thrown e)
  /\ dispatches run.2 = []
  /\ run.1.1 = Thrown (Error "Unsupported parameter type: boolean")
  /\ freed run.2 = [0; 17; 8].
Proof.
  pose proof (sendMessage_unsupported ref_react "Player" "SetScore" (JBool true)
                (ref_engine 64) 8 _ _ 17 _ _
                ltac:(discriminate) ltac:(discriminate) ltac:(discriminate)
                eq_refl eq_refl) as (Hfail & Hnone & Hfree).
  destruct (Hfree ref_frees_return) as [Herr Hfreed].
  repeat split; assumption.
Defined.

Lemma sendMessage_frees_null_slot_witness :
  let log := (sendMessage ref_react "Player" "SetScore" (JNumber 42)
                (ref_engine 64)).2 in
  length (malloc_calls log) = 2%nat
  /\ allocated log = [8; 17]
  /\ hd_error (freed log) = Some 0
  /\ length (freed log) = 3%nat /\ freed log = [0; 17; 8].
Proof.
  pose proof (sendMessage_frees_null_slot ref_react "Player" "SetScore"
                (JNumber 42) (ref_engine 64) 8 _ _ 17 _ _
                (or_intror eq_refl) eq_refl eq_refl) as (H2 & Ha & Hh & Hf).
  destruct (Hf ref_frees_return) as [H3 Hl].
  repeat split; assumption.
Defined.

(** C2. A call whose second marshalling step fails leaks the first
    buffer: on an engine with 12 bytes of heap, the method name
    ["SetScore"] is allocated at address 8, [_malloc] then aborts on the
    target name, and [sendMessage] propagates the error without a single
    call to [_free]; the two [stringToUTF8] calls of lines 142-143 sit
    before the [try], so its [finally] block never runs. *)
Theorem sendMessage_leaks_when_marshalling_fails :
  let run := sendMessage ref_react "Player" "SetScore" JUndefined (ref_engine 12) in
  run.1.1 = Thrown (JError "RuntimeError" "Aborted(OOM)" None)
  /\ allocated run.2 = [8]
  /\ freed run.2 = []
  /\ ~ (nonnull (freed run.2) ≡ₚ nonnull (allocated run.2)).
Proof.
  cbn zeta. repeat split; try reflexivity.
  intros H. apply Permutation_length in H. vm_compute in H. discriminate H.
Qed.

(** ** Initialisation *)

Ltac unfold_loader :=
  unfold initialize, try_catch, getScriptDirectory, createModule,
    setupFilesystem, setupWebGL, setupAudio, push_preRun, update_object,
    set_objects, set_Module_ref, set_isReady,
    bind, lift_result, get, put, modify, ret, throw, console, emit.

(** [getScriptDirectory] reads and does not write. *)
Lemma getScriptDirectory_reads amb st :
  (getScriptDirectory amb st).1.2 = st /\ (getScriptDirectory amb st).2 = [].
Proof.
  unfold_loader. cbn. repeat (case_match; cbn; simplify_eq); auto.
Qed.

(** [initialize], by the outcome of its two steps that can throw. *)
Lemma initialize_run amb env :
  let r := (initialize amb (fresh_loader env)).1.1 in
  let st := (initialize amb (fresh_loader env)).1.2 in
  let log := (initialize amb (fresh_loader env)).2 in
  match (getScriptDirectory amb (fresh_loader env)).1.1 with
  | Thrown cause =>
      r = Thrown (UnityError "Initialization failed" cause)
      /\ st = fresh_loader env
      /\ log = [Console "error"
                  [JString "Failed to initialize Unity Framework:"; cause]]
  | Ok dir =>
      match new_AudioContext amb with
      | Thrown cause =>
          r = Thrown (UnityError "Initialization failed" cause)
          /\ isReady st = false
          /\ log = [Console "error"
                      [JString "Failed to initialize Unity Framework:"; cause]]
      | Ok audio =>
          r = Ok tt /\ isReady st = true
          /\ log = [Console "log" [JString "Web Audio initialized."];
                    Console "log"
                      [JString "Unity Framework initialized successfully."]]
      end
      /\ Module_ref st = 1%nat
      /\ promises st = [Pending]
      /\ exists module,
          objects st =
            [ {| ready := None; readyPromiseResolve := Some 0%nat;
                 readyPromiseReject := Some 0%nat; print := None;
                 printErr := None; preRun := None; postRun := None;
                 scriptDirectory := None; GL := None; WEBAudio := None |};
              module ]
          /\ ready module = Some 0%nat
          /\ readyPromiseResolve module = None
          /\ readyPromiseReject module = None
          /\ preRun module =
               Some (if isWorker env then [] else [MountHook 1])
          /\ scriptDirectory module = Some dir
          /\ GL module = Some 1%nat
  end.
Proof.
  cbn zeta.
  destruct (getScriptDirectory_reads amb (fresh_loader env)) as [Hst Hlog].
  destruct (getScriptDirectory amb (fresh_loader env))
    as [[[dir|cause] st0] l0] eqn:E.
  all: cbn in Hst, Hlog; subst st0 l0; cbn [fst snd].
  all: unfold initialize, try_catch.
  - rewrite (bind_Ok _ _ _ _ _ _ E). clear E.
    unfold_loader. cbn. destruct env as [web [|] node]; cbn.
    all: destruct (new_AudioContext amb) as [audio|cause]; cbn.
    all: repeat split; eexists; repeat split.
  - rewrite (bind_Thrown _ _ _ _ _ _ E). clear E.
    unfold_loader. cbn. auto.
Qed.




(** Where the settling functions of [Module.ready] end up: on the object
    [this.Module] referred to when [createModule] ran, not on the object
    it refers to afterwards. *)
Lemma ready_handles_after_initialize :
  exists st log,
    new_UnityFramework page = Ok (Ok tt, st, log)
    /\ ready_handles st = (None, None)
    /\ (readyPromiseResolve <$> objects st !! 0%nat) = Some (Some 0%nat).
Proof. eexists _, _. repeat split. Qed.

(** C5 (as amended). When [getContext] returns a falsy value, the
    installed factory [Module.GL.createContext] throws
    [Error("WebGL context creation failed")] to its caller.
    [setupWebGL] only installs the factory: on a loader whose [Module]
    exists it returns, and it calls nothing. *)
Theorem createContext_fails_loudly canvas attributes ctx :
  getContext canvas "webgl" attributes = Ok ctx ->
  truthy ctx = false ->
  createContext canvas attributes = Thrown (Error "WebGL context creation failed")
  /\ (forall st, (setupWebGL st).2 = []
                 /\ (is_Some (objects st !! Module_ref st) ->
                     (setupWebGL st).1.1 = Ok tt)).
Proof.
  intros Hg Hf. split.
  - unfold createContext. now rewrite Hg, Hf.
  - intros st. unfold_loader. cbn.
    destruct (objects st !! Module_ref st); cbn; split; auto.
    intros [o Ho]. discriminate Ho.
Qed.

Lemma createContext_fails_loudly_witness :
  createContext null_canvas JUndefined
  = Thrown (Error "WebGL context creation failed")
  /\ (forall st, (setupWebGL st).2 = []
                 /\ (is_Some (objects st !! Module_ref st) ->
                     (setupWebGL st).1.1 = Ok tt)).
Proof.
  exact (createContext_fails_loudly null_canvas JUndefined JNull eq_refl eq_refl).
Defined.

(** With a canvas whose context creation returns [null], [initialize]
    still fulfils. *)
Lemma initialize_fulfils_with_failing_webgl :
  getContext null_canvas "webgl" JUndefined = Ok JNull
  /\ truthy JNull = false
  /\ exists st log,
       new_UnityFramework page = Ok (Ok tt, st, log) /\ isReady st = true.
Proof. repeat split. eexists _, _. repeat split. Qed.

(** Without both a page and a Node context, the script directory is the
    empty string. *)
Lemma getScriptDirectory_default amb st :
  isWeb (environment st) = false ->
  isNode (environment st) = false ->
  getScriptDirectory amb st = (Ok (JString EmptyString), st, []).
Proof.
  intros Hw Hn. unfold_loader. cbn. rewrite Hw, Hn. reflexivity.
Qed.

(** [setupAudio] needs [window]: when [typeof window] is not ["object"],
    the audio context cannot be constructed. *)
Lemma new_AudioContext_needs_window amb env :
  detectEnvironment amb = Ok env ->
  isWeb env = false ->
  exists cause, new_AudioContext amb = Thrown cause.
Proof.
  unfold detectEnvironment. intros Hd Hw.
  assert (String.eqb (typeof_global (window amb)) "object" = false) as Hty.
  { repeat case_match; simplify_eq; cbn in *; assumption. }
  clear Hd Hw. unfold new_AudioContext.
  destruct (window amb) as [[]|]; cbn in *; try discriminate Hty; eauto.
Qed.

(** C6. On a host where none of the three environment flags holds, the
    script directory is the empty string, but [initialize] does not
    complete: [setupAudio] reads [window], which is not declared, and the
    promise of [initialize] is rejected with the ready flag left false. *)
Theorem initialize_rejects_outside_page :
  let env := {| isWeb := false; isWorker := false; isNode := false |} in
  let run := initialize bare (fresh_loader env) in
  detectEnvironment bare = Ok env
  /\ (getScriptDirectory bare (fresh_loader env)).1.1 = Ok (JString EmptyString)
  /\ run.1.1 = Thrown (UnityError "Initialization failed"
                         (ReferenceError "window is not defined"))
  /\ isReady run.1.2 = false.
Proof. repeat split. Qed.

(** The same on every host: with all three flags false the script
    directory is the empty string and [initialize] is rejected. *)
Lemma initialize_rejects_without_context amb env :
  detectEnvironment amb = Ok env ->
  isWeb env = false -> isWorker env = false -> isNode env = false ->
  (getScriptDirectory amb (fresh_loader env)).1.1 = Ok (JString EmptyString)
  /\ (exists e, (initialize amb (fresh_loader env)).1.1 = Thrown e)
  /\ isReady (initialize amb (fresh_loader env)).1.2 = false.
Proof.
  intros Hd Hw Hk Hn.
  pose proof (initialize_run amb env) as H. cbn zeta in H.
  rewrite getScriptDirectory_default in * by assumption. cbn [fst snd] in *.
  destruct (new_AudioContext_needs_window amb env Hd Hw) as [cause Hc].
  rewrite Hc in H. destruct H as ((-> & -> & _) & _). eauto.
Qed.

(** C8. With the worker flag set, [setupFilesystem] changes nothing, and
    after [initialize] no hook is registered anywhere: the [preRun] list
    of [Module] is empty (or absent, when [initialize] failed before
    [createModule]), and [initialize] made no call to the engine. *)
Theorem worker_registers_no_hook amb env :
  isWorker env = true ->
  let st := (initialize amb (fresh_loader env)).1.2 in
  let log := (initialize amb (fresh_loader env)).2 in
  (forall this, environment this = env ->
                setupFilesystem this = (Ok tt, this, []))
  /\ registered_hooks st = []
  /\ (forall o, objects st !! Module_ref st = Some o ->
                preRun o = Some [] \/ preRun o = None)
  /\ (forall c r, ~ In (Engine c r) log).
Proof.
  intros Hw. cbn zeta. split.
  { intros this <-. unfold_loader. cbn. now rewrite Hw. }
  pose proof (initialize_run amb env) as H. cbn zeta in H.
  destruct (getScriptDirectory amb (fresh_loader env)).1.1 as [dir|cause].
  - destruct H as (H & Hr & _ & module & Ho & _ & _ & _ & Hpre & _).
    rewrite Hw in Hpre.
    split; [|split].
    + unfold registered_hooks. rewrite Ho. cbn [flat_map].
      rewrite Hpre. reflexivity.
    + rewrite Ho, Hr. cbn. intros o [= <-]. auto.
    + destruct (new_AudioContext amb); destruct H as (_ & _ & ->);
        intros c r; cbn; intuition discriminate.
  - destruct H as (_ & -> & ->). cbn.
    split; [reflexivity|split].
    + intros o [= <-]. auto.
    + intros c r [E|[]]. discriminate E.
Qed.

Lemma worker_registers_no_hook_witness :
  let env := {| isWeb := false; isWorker := true; isNode := false |} in
  let st := (initialize worker (fresh_loader env)).1.2 in
  detectEnvironment worker = Ok env
  /\ registered_hooks st = []
  /\ (forall o, objects st !! Module_ref st = Some o ->
                preRun o = Some [] \/ preRun o = None).
Proof.
  cbn zeta. split; [reflexivity|].
  pose proof (worker_registers_no_hook worker
                {| isWeb := false; isWorker := true; isNode := false |}
                eq_refl) as (_ & Hh & Hp & _).
  split; assumption.
Defined.

(** ** The filesystem-mount hook *)

Lemma remove_add_dependency id id' p :
  dependency_count id' (remove_dependency id (add_dependency id p))
  = dependency_count id' p.
Proof.
  unfold dependency_count, remove_dependency, add_dependency.
  rewrite lookup_insert_eq.
  destruct (decide (id = id')) as [<-|Hne].
  - destruct (p !! id) as [[|n]|] eqn:E; cbn.
    + now rewrite lookup_delete_eq.
    + now rewrite lookup_insert_eq.
    + now rewrite lookup_delete_eq.
  - destruct (p !! id) as [[|n]|] eqn:E; cbn.
    + now rewrite lookup_delete_ne, lookup_insert_ne.
    + now rewrite !lookup_insert_ne.
    + now rewrite lookup_delete_ne, lookup_insert_ne.
Qed.

Lemma add_dependency_count id p :
  dependency_count id (add_dependency id p) = S (dependency_count id p).
Proof.
  unfold dependency_count, add_dependency. now rewrite lookup_insert_eq.
Qed.

(** C7. Whatever the sync reports, the callback calls
    [removeRunDependency("JS_FileSystem_Mount")] exactly once; an error
    adds one warning and nothing else, and the callback throws only if
    [removeRunDependency] itself does.  On the reference engine the hook
    followed by the callback leaves every run-dependency counter as it
    was, so an engine with no other pending token is unblocked, with or
    without an error. *)
Theorem sync_outcome_clears_run_dependency :
  (forall estate (react : call -> estate -> reply * estate)
          (err : jsval) (m : @machine estate),
      let run := syncfs_callback react err m in
      run_dependency_calls run.2 = [removeRunDependency "JS_FileSystem_Mount"]
      /\ warnings run.2
         = (if truthy err
            then [[JString "IndexedDB unavailable:"; err]] else [])
      /\ run.1.1
         = match (react (removeRunDependency "JS_FileSystem_Mount")
                    (engine m)).1 with
           | Returns _ => Ok tt
           | Throws e => Thrown e
           end)
  /\ (forall (err : jsval) (s : refstate) (pp : Z),
        let hooked := mount_hook ref_react (Machine s pp) in
        let synced := syncfs_callback ref_react err hooked.1.2 in
        hooked.1.1 = Ok tt
        /\ synced.1.1 = Ok tt
        /\ run_dependency_calls (hooked.2 ++ synced.2)
           = [addRunDependency "JS_FileSystem_Mount";
              removeRunDependency "JS_FileSystem_Mount"]
        /\ dependency_count "JS_FileSystem_Mount" (pending (engine hooked.1.2))
           = S (dependency_count "JS_FileSystem_Mount" (pending s))
        /\ (forall id, dependency_count id (pending (engine synced.1.2))
                       = dependency_count id (pending s))
        /\ (engine_unblocked s -> engine_unblocked (engine synced.1.2))).
Proof.
  split.
  - intros estate react err m. cbn zeta.
    unfold syncfs_callback, bind, console, emit, callEngine, ret.
    destruct (truthy err); cbn;
      destruct (react (removeRunDependency "JS_FileSystem_Mount") (engine m))
        as [[v|e] s']; cbn; auto.
  - intros err s pp. cbn zeta.
    assert (forall id,
      dependency_count id
        (pending (engine (syncfs_callback ref_react err
                            (mount_hook ref_react (Machine s pp)).1.2).1.2))
      = dependency_count id (pending s)) as Hcount.
    { intros id. unfold syncfs_callback, mount_hook, bind, console, emit,
        callEngine, ret.
      destruct (truthy err); cbn; apply remove_add_dependency. }
    split; [reflexivity|].
    split; [unfold syncfs_callback, bind, console, emit, callEngine, ret;
            destruct (truthy err); reflexivity|].
    split; [unfold syncfs_callback, bind, console, emit, callEngine, ret;
            destruct (truthy err); reflexivity|].
    split; [apply add_dependency_count|].
    split; [exact Hcount|].
    intros Hu id. rewrite Hcount. apply Hu.
Qed.

(** * Further properties *)

(** ** The call-in, on every engine *)

Section SendMessageMore.

Context {estate : Type}.
Variable react : call -> estate -> reply * estate.

(** The [try] block dispatches at most once, the entry point of the
    argument's shape, on pointers it was given or has allocated. *)
Lemma sendMessage_try_dispatches objPtr funcPtr param m :
  let l := (sendMessage_try react objPtr funcPtr param m).2 in
  dispatches l = []
  \/ exists c, dispatches l = [c] /\ dispatch_for param c
               /\ forall p, In p (pointers_of c) ->
                            In p (objPtr :: funcPtr :: allocated l).
Proof.
  cbn zeta. destruct param;
    try (left; unfold sendMessage_try, throw; reflexivity).
  - destruct (sendMessage_try_absent react objPtr funcPtr m) as (r & -> & _).
    right. eexists. repeat split. cbn. tauto.
  - destruct (sendMessage_try_number react objPtr funcPtr x m) as (r & -> & _).
    right. eexists. repeat split. cbn. tauto.
  - destruct (stringToUTF8 react s m) as [[[p|e] m3] l3] eqn:H3.
    + destruct (sendMessage_try_string react objPtr funcPtr _ _ _ _ _ H3)
        as (r & -> & _).
      destruct (stringToUTF8_Ok_log react _ _ _ _ _ H3) as (Hd & _ & Ha & _).
      right. rewrite dispatches_app, allocated_app, Hd, Ha.
      eexists. repeat split. cbn. tauto.
    + left. unfold sendMessage_try. rewrite (bind_Thrown _ _ _ _ _ _ H3).
      pose proof (stringToUTF8_log_quiet react s m) as [_ Hq].
      now rewrite H3 in Hq.
Qed.

(** X1. Whatever the engine does, a call of [sendMessage] dispatches at
    most one entry point; one that is dispatched is the one of the
    argument's shape, and every pointer it receives was returned by a
    [_malloc] of this very call. *)
Theorem sendMessage_dispatch_sound gameObject func param m :
  let log := (sendMessage react gameObject func param m).2 in
  (length (dispatches log) <= 1)%nat
  /\ forall c, In c (dispatches log) ->
       dispatch_for param c
       /\ forall p, In p (pointers_of c) -> In p (allocated log).
Proof.
  cbn zeta.
  destruct (stringToUTF8 react func m) as [[[funcPtr|e] m1] l1] eqn:H1.
  2:{ unfold sendMessage. rewrite (bind_Thrown _ _ _ _ _ _ H1). cbn [snd].
      pose proof (stringToUTF8_log_quiet react func m) as [_ Hq].
      rewrite H1 in Hq. cbn [snd] in Hq. rewrite Hq. cbn. split; [lia|tauto]. }
  destruct (stringToUTF8 react gameObject m1) as [[[objPtr|e] m2] l2] eqn:H2.
  2:{ unfold sendMessage. rewrite (bind_Ok _ _ _ _ _ _ H1). cbn beta.
      rewrite (bind_Thrown _ _ _ _ _ _ H2). cbn [snd].
      destruct (stringToUTF8_Ok_log react _ _ _ _ _ H1) as (Hd1 & _).
      pose proof (stringToUTF8_log_quiet react gameObject m1) as [_ Hq].
      rewrite H2 in Hq. cbn [snd] in Hq.
      rewrite dispatches_app, Hd1, Hq. cbn. split; [lia|tauto]. }
  destruct (sendMessage_marshalled react _ _ param _ _ _ _ _ _ _ H1 H2) as [_ ->].
  destruct (stringToUTF8_Ok_log react _ _ _ _ _ H1) as (Hd1 & _ & Ha1 & _).
  destruct (stringToUTF8_Ok_log react _ _ _ _ _ H2) as (Hd2 & _ & Ha2 & _).
  rewrite try_finally_log.
  set (m0 := Machine (engine m2) 0).
  set (ltry := (sendMessage_try react objPtr funcPtr param m0).2).
  destruct (sendMessage_finally_log react objPtr funcPtr
              (sendMessage_try react objPtr funcPtr param m0).1.2)
    as (Hdf & _ & Haf & _).
  rewrite !dispatches_app, !allocated_app, Hd1, Hd2, Hdf, Ha1, Ha2, Haf.
  rewrite app_nil_r. cbn [app].
  destruct (sendMessage_try_dispatches objPtr funcPtr param m0)
    as [E|(c & E & Hfor & Hptr)]; fold ltry in E; rewrite E.
  - cbn. split; [lia|tauto].
  - split; [cbn; lia|]. intros c' [<-|[]]. split; [exact Hfor|].
    intros p Hp. specialize (Hptr p Hp). fold ltry in Hptr.
    rewrite app_nil_r. cbn in *. tauto.
Qed.

(** The outcome of the [try] block on the accepted shapes. *)
Lemma sendMessage_try_outcome objPtr funcPtr m :
  (sendMessage_try react objPtr funcPtr JUndefined m).1.1
  = outcome_of_reply (react (_SendMessage objPtr funcPtr) (engine m)).1
  /\ (forall x,
        (sendMessage_try react objPtr funcPtr (JNumber x) m).1.1
        = outcome_of_reply (react (_SendMessageFloat objPtr funcPtr x) (engine m)).1)
  /\ (forall s p m3 l3,
        stringToUTF8 react s m = (Ok p, m3, l3) ->
        (sendMessage_try react objPtr funcPtr (JString s) m).1.1
        = outcome_of_reply
            (react (_SendMessageString objPtr funcPtr p) (engine m3)).1).
Proof.
  repeat split; intros.
  - unfold sendMessage_try, bind, callEngine, ret.
    destruct (react _ _) as [[v|e] s']; reflexivity.
  - unfold sendMessage_try, bind, callEngine, ret.
    destruct (react _ _) as [[v|e] s']; reflexivity.
  - unfold sendMessage_try. rewrite (bind_Ok _ _ _ _ _ _ H). cbn beta.
    unfold bind, set_paramPtr, modify, callEngine, ret. cbn.
    destruct (react _ _) as [[v|e] s']; reflexivity.
Qed.

(** X2. With a [_free] that returns, [sendMessage] ends exactly as the
    entry point it dispatched: it returns when the entry point returns
    and propagates the entry point's exception, unchanged, when it
    throws. *)
Theorem sendMessage_outcome gameObject func m funcPtr m1 l1 objPtr m2 l2 :
  frees_return react ->
  stringToUTF8 react func m = (Ok funcPtr, m1, l1) ->
  stringToUTF8 react gameObject m1 = (Ok objPtr, m2, l2) ->
  (sendMessage react gameObject func JUndefined m).1.1
  = outcome_of_reply (react (_SendMessage objPtr funcPtr) (engine m2)).1
  /\ (forall x,
        (sendMessage react gameObject func (JNumber x) m).1.1
        = outcome_of_reply
            (react (_SendMessageFloat objPtr funcPtr x) (engine m2)).1)
  /\ (forall s p m3 l3,
        stringToUTF8 react s (Machine (engine m2) 0) = (Ok p, m3, l3) ->
        (sendMessage react gameObject func (JString s) m).1.1
        = outcome_of_reply
            (react (_SendMessageString objPtr funcPtr p) (engine m3)).1).
Proof.
  intros Hf H1 H2.
  destruct (sendMessage_try_outcome objPtr funcPtr (Machine (engine m2) 0))
    as (Ha & Hn & Hs).
  repeat split; intros.
  - destruct (sendMessage_marshalled react _ _ JUndefined _ _ _ _ _ _ _ H1 H2)
      as [-> _].
    rewrite try_finally_result; [exact Ha|].
    apply sendMessage_finally_frees, Hf.
  - destruct (sendMessage_marshalled react _ _ (JNumber x) _ _ _ _ _ _ _ H1 H2)
      as [-> _].
    rewrite try_finally_result; [apply Hn|].
    apply sendMessage_finally_frees, Hf.
  - destruct (sendMessage_marshalled react _ _ (JString s) _ _ _ _ _ _ _ H1 H2)
      as [-> _].
    rewrite try_finally_result; [eapply Hs; eassumption|].
    apply sendMessage_finally_frees, Hf.
Qed.

(** X3. With a string argument [sendMessage] makes three allocations,
    method, target, argument, and with a [_free] that returns it frees
    the same three pointers in the reverse order, whether the entry
    point returns or throws. *)
Theorem sendMessage_string_frees_in_reverse
    gameObject func s m funcPtr m1 l1 objPtr m2 l2 p m3 l3 :
  frees_return react ->
  stringToUTF8 react func m = (Ok funcPtr, m1, l1) ->
  stringToUTF8 react gameObject m1 = (Ok objPtr, m2, l2) ->
  stringToUTF8 react s (Machine (engine m2) 0) = (Ok p, m3, l3) ->
  let log := (sendMessage react gameObject func (JString s) m).2 in
  allocated log = [funcPtr; objPtr; p]
  /\ freed log = reverse (allocated log).
Proof.
  intros Hf H1 H2 H3. cbn zeta.
  destruct (sendMessage_marshalled react _ _ (JString s) _ _ _ _ _ _ _ H1 H2)
    as [_ ->].
  rewrite try_finally_log.
  destruct (sendMessage_try_string react objPtr funcPtr _ _ _ _ _ H3)
    as (r & Et & Hp).
  destruct (stringToUTF8_Ok_log react _ _ _ _ _ H1) as (_ & Hf1 & Ha1 & _).
  destruct (stringToUTF8_Ok_log react _ _ _ _ _ H2) as (_ & Hf2 & Ha2 & _).
  destruct (stringToUTF8_Ok_log react _ _ _ _ _ H3) as (_ & Hf3 & Ha3 & _).
  set (mt := (sendMessage_try react objPtr funcPtr (JString s)
                (Machine (engine m2) 0)).1.2) in *.
  destruct (sendMessage_finally_log react objPtr funcPtr mt) as (_ & _ & Haf & _).
  destruct (sendMessage_finally_frees react objPtr funcPtr mt Hf) as [_ Hff].
  rewrite Et, !allocated_app, !freed_app, Ha1, Ha2, Ha3, Hf1, Hf2, Hf3, Haf, Hff, Hp.
  split; reflexivity.
Qed.

(** X4. When the marshalling of a string argument throws, no entry point
    is dispatched and the error is propagated; with a [_free] that
    returns, the target and the method buffers are freed (after the null
    slot), while a buffer the failed marshalling had already allocated
    is not. *)
Theorem sendMessage_argument_marshalling_fails
    gameObject func s m funcPtr m1 l1 objPtr m2 l2 e m3 l3 :
  frees_return react ->
  stringToUTF8 react func m = (Ok funcPtr, m1, l1) ->
  stringToUTF8 react gameObject m1 = (Ok objPtr, m2, l2) ->
  stringToUTF8 react s (Machine (engine m2) 0) = (Thrown e, m3, l3) ->
  let run := sendMessage react gameObject func (JString s) m in
  run.1.1 = Thrown e
  /\ dispatches run.2 = []
  /\ freed run.2 = [0; objPtr; funcPtr]
  /\ allocated run.2 = [funcPtr; objPtr] ++ allocated l3.
Proof.
  intros Hf H1 H2 H3. cbn zeta.
  destruct (sendMessage_marshalled react _ _ (JString s) _ _ _ _ _ _ _ H1 H2)
    as [-> ->].
  assert (sendMessage_try react objPtr funcPtr (JString s) (Machine (engine m2) 0)
          = (Thrown e, m3, l3)) as Et.
  { unfold sendMessage_try. now rewrite (bind_Thrown _ _ _ _ _ _ H3). }
  destruct (stringToUTF8_run react s (Machine (engine m2) 0)) as [_ Hp].
  pose proof (stringToUTF8_log_quiet react s (Machine (engine m2) 0)) as [Hq3 Hd3].
  rewrite H3 in Hp, Hq3, Hd3. cbn [fst snd paramPtr] in Hp, Hq3, Hd3.
  destruct (stringToUTF8_Ok_log react _ _ _ _ _ H1) as (Hd1 & Hf1 & Ha1 & _).
  destruct (stringToUTF8_Ok_log react _ _ _ _ _ H2) as (Hd2 & Hf2 & Ha2 & _).
  destruct (sendMessage_finally_log react objPtr funcPtr m3) as (Hdf & _ & Haf & _).
  destruct (sendMessage_finally_frees react objPtr funcPtr m3 Hf) as [Hrf Hff].
  rewrite try_finally_log, try_finally_result; rewrite Et; cbn [fst snd];
    [|exact Hrf].
  rewrite !dispatches_app, !freed_app, !allocated_app.
  rewrite Hd1, Hd2, Hd3, Hdf, Hf1, Hf2, Hq3, Hff, Ha1, Ha2, Haf, Hp.
  cbn [app]. rewrite app_nil_r. repeat split.
Qed.

(** X5. An exception of [_free] masks the error of the call: when the
    argument has an unsupported shape and [_free] throws on the null
    slot, [sendMessage] propagates the exception of [_free], not the
    unsupported-type error, and neither buffer is freed. *)
Theorem sendMessage_free_error_masks
    gameObject func param m funcPtr m1 l1 objPtr m2 l2 e s' :
  param <> JUndefined ->
  typeof param <> "string" ->
  typeof param <> "number" ->
  stringToUTF8 react func m = (Ok funcPtr, m1, l1) ->
  stringToUTF8 react gameObject m1 = (Ok objPtr, m2, l2) ->
  react (_free 0) (engine m2) = (Throws e, s') ->
  let run := sendMessage react gameObject func param m in
  run.1.1 = Thrown e /\ freed run.2 = [0].
Proof.
  intros Hu Hs Hn H1 H2 Hfree. cbn zeta.
  destruct (sendMessage_marshalled react _ _ param _ _ _ _ _ _ _ H1 H2)
    as [-> ->].
  destruct (stringToUTF8_Ok_log react _ _ _ _ _ H1) as (_ & Hf1 & _).
  destruct (stringToUTF8_Ok_log react _ _ _ _ _ H2) as (_ & Hf2 & _).
  unfold try_finally.
  rewrite (sendMessage_try_unsupported react objPtr funcPtr param _ Hu Hs Hn).
  unfold sendMessage_finally, bind, get, callEngine, ret. cbn.
  rewrite Hfree. cbn. rewrite !freed_app, Hf1, Hf2. split; reflexivity.
Qed.

(** X6. [stringToUTF8] does not test the pointer [_malloc] returns: when
    the allocator answers with the null pointer, the encoder is still
    called, at address 0 with the full budget, and 0 is what
    [stringToUTF8] returns. *)
Theorem stringToUTF8_no_null_check str m n s1 s2 :
  react (lengthBytesUTF8 str) (engine m) = (Returns n, s1) ->
  react (_malloc (n + 1)) s1 = (Returns 0, s2) ->
  let run := stringToUTF8 react str m in
  calls run.2 = [lengthBytesUTF8 str; _malloc (n + 1);
                 Module_stringToUTF8 str 0 (n + 1)]
  /\ (forall v s3, react (Module_stringToUTF8 str 0 (n + 1)) s2 = (Returns v, s3) ->
                   run.1.1 = Ok 0).
Proof.
  intros Hl Hm. cbn zeta.
  unfold stringToUTF8, bind, callEngine, ret. cbn.
  rewrite Hl. cbn. rewrite Hm. cbn.
  destruct (react (Module_stringToUTF8 str 0 (n + 1)) s2) as [[v|e] s3]; cbn;
    split; try reflexivity; intros; congruence.
Qed.


End SendMessageMore.

(** ** The call-in on the sample engines *)

Lemma with_faults_frees_return bad :
  (forall p, bad (_free p) = false) ->
  frees_return (with_faults bad ref_react).
Proof.
  intros Hb p s. unfold with_faults. rewrite Hb. eexists _, _. reflexivity.
Qed.

Lemma lenient_marshalling_returns bad :
  (forall c, is_marshal c = true -> bad c = false) ->
  marshalling_returns (with_faults bad lenient_react).
Proof.
  intros Hb c s Hc. unfold with_faults. rewrite (Hb c Hc).
  destruct c; try discriminate Hc; cbn.
  - eexists _, _. reflexivity.
  - destruct (Z.leb _ _); eexists _, _; reflexivity.
  - eexists _, _. reflexivity.
Qed.

Lemma lenient_frees_return bad :
  (forall p, bad (_free p) = false) ->
  frees_return (with_faults bad lenient_react).
Proof.
  intros Hb p s. unfold with_faults. rewrite Hb. eexists _, _. reflexivity.
Qed.

(** An entry point that throws: the caller sees its exception. *)
Lemma sendMessage_outcome_witness :
  (sendMessage (with_faults is_dispatch ref_react) "Player" "SetScore"
     JUndefined (ref_engine 64)).1.1
  = Thrown (Error "engine fault").
Proof.
  exact (proj1 (sendMessage_outcome (with_faults is_dispatch ref_react)
                  "Player" "SetScore" (ref_engine 64) 8 _ _ 17 _ _
                  (with_faults_frees_return is_dispatch (fun _ => eq_refl))
                  eq_refl eq_refl)).
Defined.

Lemma sendMessage_string_frees_in_reverse_witness :
  let log := (sendMessage ref_react "Player" "SetName" (JString "Ann")
                (ref_engine 64)).2 in
  allocated log = [8; 16; 23] /\ freed log = reverse (allocated log).
Proof.
  exact (sendMessage_string_frees_in_reverse ref_react "Player" "SetName" "Ann"
           (ref_engine 64) 8 _ _ 16 _ _ 23 _ _
           ref_frees_return eq_refl eq_refl eq_refl).
Defined.

(** The encoder throws on the argument, after its buffer was allocated
    at 23: the buffer is not among the pointers freed. *)
Lemma sendMessage_argument_marshalling_fails_witness :
  let run := sendMessage (with_faults (is_encode_of "Ann") ref_react)
               "Player" "SetName" (JString "Ann") (ref_engine 64) in
  run.1.1 = Thrown (Error "engine fault")
  /\ dispatches run.2 = []
  /\ freed run.2 = [0; 16; 8]
  /\ allocated run.2 = [8; 16; 23].
Proof.
  exact (sendMessage_argument_marshalling_fails
           (with_faults (is_encode_of "Ann") ref_react)
           "Player" "SetName" "Ann" (ref_engine 64) 8 _ _ 16 _ _ _ _ _
           (with_faults_frees_return (is_encode_of "Ann") (fun _ => eq_refl))
           eq_refl eq_refl eq_refl).
Defined.

Lemma sendMessage_free_error_masks_witness :
  let run := sendMessage (with_faults is_null_free ref_react)
               "Player" "SetScore" (JBool true) (ref_engine 64) in
  run.1.1 = Thrown (Error "engine fault") /\ freed run.2 = [0].
Proof.
  exact (sendMessage_free_error_masks (with_faults is_null_free ref_react)
           "Player" "SetScore" (JBool true) (ref_engine 64) 8 _ _ 17 _ _ _ _
           ltac:(discriminate) ltac:(discriminate) ltac:(discriminate)
           eq_refl eq_refl eq_refl).
Defined.

(** An exhausted heap with an allocator that returns the null pointer. *)
Lemma stringToUTF8_no_null_check_witness :
  let run := stringToUTF8 lenient_react "Player" (ref_engine 0) in
  calls run.2 = [lengthBytesUTF8 "Player"; _malloc 7;
                 Module_stringToUTF8 "Player" 0 7]
  /\ run.1.1 = Ok 0.
Proof.
  pose proof (stringToUTF8_no_null_check lenient_react "Player" (ref_engine 0)
                6 _ _ eq_refl eq_refl) as [Hc Hr].
  split; [exact Hc|]. exact (Hr _ _ eq_refl).
Defined.

(** The heap is short, so the allocation for the argument returns the
    null pointer, and the entry point throws: still the non-null
    pointers freed are the non-null pointers allocated. *)
Lemma sendMessage_frees_allocated_witness :
  let log := (sendMessage (with_faults is_dispatch lenient_react)
                "Player" "SetName" (JString "Ann") (ref_engine 16)).2 in
  nonnull (freed log) ≡ₚ nonnull (allocated log).
Proof.
  exact (sendMessage_frees_allocated (with_faults is_dispatch lenient_react)
           "Player" "SetName" (JString "Ann") (ref_engine 16)
           (lenient_marshalling_returns is_dispatch
              (fun c H => match c return is_marshal c = true -> is_dispatch c = false
                          with
                          | lengthBytesUTF8 _ | _malloc _
                          | Module_stringToUTF8 _ _ _ => fun _ => eq_refl
                          | _ => fun H => match Bool.diff_false_true H with end
                          end H))
           (lenient_frees_return is_dispatch (fun _ => eq_refl))).
Defined.

Lemma sendMessage_marshalling_failure_leaks_witness :
  let run := sendMessage ref_react "Player" "SetScore" (JNumber 42)
               (ref_engine 12) in
  run.1.1 = Thrown (JError "RuntimeError" "Aborted(OOM)" None)
  /\ In 8 (allocated run.2) /\ freed run.2 = [].
Proof.
  exact (sendMessage_marshalling_failure_leaks ref_react "Player" "SetScore"
           (JNumber 42) (ref_engine 12) 8 _ _ _ _ _ eq_refl eq_refl).
Defined.

(** ** The loader on an arbitrary instance *)

Lemma createModule_run dir this :
  createModule dir this =
  (Ok (length (objects this)),
   {| objects :=
        alter (store_handles (length (promises this))) (Module_ref this)
              (objects this)
        ++ [new_module (length (promises this)) dir];
      promises := promises this ++ [Pending];
      Module_ref := Module_ref this;
      isReady := isReady this;
      environment := environment this |},
   []).
Proof.
  unfold createModule, bind, get, put, ret. cbn.
  rewrite length_alter. reflexivity.
Qed.

Lemma push_preRun_run r h this o hooks :
  objects this !! r = Some o ->
  preRun o = Some hooks ->
  push_preRun r h this
  = (Ok tt,
     set_objects (<[r := with_preRun (hooks ++ [h]) o]> (objects this)) this,
     []).
Proof.
  intros Ho Hp. unfold push_preRun, bind, get, put. cbn.
  rewrite Ho, Hp. reflexivity.
Qed.

Lemma update_object_run r f this o :
  objects this !! r = Some o ->
  update_object r f this
  = (Ok tt, set_objects (<[r := f o]> (objects this)) this, []).
Proof.
  intros Ho. unfold update_object, bind, get, put. cbn.
  rewrite Ho. reflexivity.
Qed.

Lemma lookup_created {A} (f : A -> A) i (l : list A) x :
  (alter f i l ++ [x]) !! length l = Some x.
Proof. apply list_lookup_middle. now rewrite length_alter. Qed.

Lemma insert_created {A} (f : A -> A) i (l : list A) x y :
  <[length l := y]> (alter f i l ++ [x]) = alter f i l ++ [y].
Proof.
  rewrite <- (length_alter f l i) at 1.
  rewrite <- (Nat.add_0_r (length (alter f i l))).
  now rewrite insert_app_r.
Qed.

Lemma modify_run {S} (f : S -> S) s : modify f s = (Ok tt, f s, []).
Proof. reflexivity. Qed.

Lemma setupFilesystem_worker this :
  isWorker (environment this) = true ->
  setupFilesystem this = (Ok tt, this, []).
Proof. intros Hw. unfold setupFilesystem, bind, get, ret. cbn. now rewrite Hw. Qed.

Lemma setupFilesystem_run this o hooks :
  isWorker (environment this) = false ->
  objects this !! Module_ref this = Some o ->
  preRun o = Some hooks ->
  setupFilesystem this
  = (Ok tt,
     set_objects
       (<[Module_ref this :=
            with_preRun (hooks ++ [MountHook (Module_ref this)]) o]>
          (objects this)) this,
     []).
Proof.
  intros Hw Ho Hp. unfold setupFilesystem. unfold bind at 1. unfold get.
  cbn beta iota. rewrite Hw. cbn [negb].
  rewrite (push_preRun_run _ _ _ _ _ Ho Hp). reflexivity.
Qed.

Lemma setupWebGL_run this o :
  objects this !! Module_ref this = Some o ->
  setupWebGL this
  = (Ok tt,
     set_objects (<[Module_ref this := with_GL (Module_ref this) o]>
                    (objects this)) this,
     []).
Proof.
  intros Ho. unfold setupWebGL. unfold bind at 1. unfold get.
  cbn beta iota. rewrite (update_object_run _ _ _ _ Ho). reflexivity.
Qed.

Lemma setupAudio_run amb this o :
  objects this !! Module_ref this = Some o ->
  setupAudio amb this
  = match new_AudioContext amb with
    | Ok audio =>
        (Ok tt,
         set_objects (<[Module_ref this := with_WEBAudio audio o]>
                        (objects this)) this,
         [Console "log" [JString "Web Audio initialized."]])
    | Thrown e => (Thrown e, this, [])
    end.
Proof.
  intros Ho. unfold setupAudio. unfold bind at 1. unfold get.
  cbn beta iota. unfold bind at 1, lift_result.
  destruct (new_AudioContext amb) as [audio|e]; [|reflexivity].
  cbn beta iota. unfold bind at 1.
  rewrite (update_object_run _ _ _ _ Ho). reflexivity.
Qed.

(** [initialize] from any instance, once the script directory is known:
    the object it builds and where it puts it. *)
Lemma initialize_from amb this dir :
  (getScriptDirectory amb this).1.1 = Ok dir ->
  let n := length (objects this) in
  let pid := length (promises this) in
  let stored := alter (store_handles pid) (Module_ref this) (objects this) in
  let hooks := if isWorker (environment this) then [] else [MountHook n] in
  let built := with_GL n (with_preRun hooks (new_module pid dir)) in
  initialize amb this =
  match new_AudioContext amb with
  | Ok audio =>
      (Ok tt,
       {| objects := stored ++ [with_WEBAudio audio built];
          promises := promises this ++ [Pending];
          Module_ref := n; isReady := true;
          environment := environment this |},
       [Console "log" [JString "Web Audio initialized."];
        Console "log" [JString "Unity Framework initialized successfully."]])
  | Thrown cause =>
      (Thrown (UnityError "Initialization failed" cause),
       {| objects := stored ++ [built];
          promises := promises this ++ [Pending];
          Module_ref := n; isReady := isReady this;
          environment := environment this |},
       [Console "error"
          [JString "Failed to initialize Unity Framework:"; cause]])
  end.
Proof.
  intros Hd. cbn zeta.
  destruct (getScriptDirectory_reads amb this) as [Hst Hlog].
  destruct (getScriptDirectory amb this) as [[r st0] l0] eqn:E.
  cbn in Hd, Hst, Hlog. subst r st0 l0.
  set (n := length (objects this)).
  set (pid := length (promises this)).
  set (stored := alter (store_handles pid) (Module_ref this) (objects this)).
  assert (forall x y, <[n := y]> (stored ++ [x]) = stored ++ [y]) as Hins
      by (intros; apply insert_created).
  assert (forall x, (stored ++ [x]) !! n = Some x) as Hlook
      by (intros; apply lookup_created).
  unfold initialize, try_catch.
  rewrite (bind_Ok _ _ _ _ _ _ E). cbn beta.
  rewrite (bind_Ok _ _ _ _ _ _ (createModule_run dir this)). cbn beta.
  rewrite (bind_Ok _ _ _ _ _ _ (modify_run _ _)). cbn beta.
  unfold set_Module_ref. cbn [objects promises Module_ref isReady environment].
  fold n pid. fold stored.
  destruct (isWorker (environment this)) eqn:Hw.
  - match goal with
    | |- context [bind setupFilesystem _ ?s] =>
        rewrite (bind_Ok _ _ _ _ _ _ (setupFilesystem_worker s Hw))
    end. cbn beta.
    match goal with
    | |- context [bind setupWebGL _ ?s] =>
        rewrite (bind_Ok _ _ _ _ _ _ (setupWebGL_run s _ (Hlook _)))
    end. cbn beta.
    unfold set_objects.
    cbn [objects promises Module_ref isReady environment]. rewrite Hins.
    match goal with
    | |- context [bind (setupAudio amb) _ ?s] =>
        pose proof (setupAudio_run amb s _ (Hlook _)) as Ha
    end.
    destruct (new_AudioContext amb) as [audio|cause].
    + rewrite (bind_Ok _ _ _ _ _ _ Ha). cbn beta.
      unfold set_objects.
      cbn [objects promises Module_ref isReady environment]. rewrite Hins.
      reflexivity.
    + rewrite (bind_Thrown _ _ _ _ _ _ Ha). reflexivity.
  - match goal with
    | |- context [bind setupFilesystem _ ?s] =>
        rewrite (bind_Ok _ _ _ _ _ _
                   (setupFilesystem_run s _ [] Hw (Hlook _) eq_refl))
    end. cbn beta.
    unfold set_objects.
    cbn [objects promises Module_ref isReady environment app]. rewrite Hins.
    match goal with
    | |- context [bind setupWebGL _ ?s] =>
        rewrite (bind_Ok _ _ _ _ _ _ (setupWebGL_run s _ (Hlook _)))
    end. cbn beta.
    unfold set_objects.
    cbn [objects promises Module_ref isReady environment]. rewrite Hins.
    match goal with
    | |- context [bind (setupAudio amb) _ ?s] =>
        pose proof (setupAudio_run amb s _ (Hlook _)) as Ha
    end.
    destruct (new_AudioContext amb) as [audio|cause].
    + rewrite (bind_Ok _ _ _ _ _ _ Ha). cbn beta.
      unfold set_objects.
      cbn [objects promises Module_ref isReady environment]. rewrite Hins.
      reflexivity.
    + rewrite (bind_Thrown _ _ _ _ _ _ Ha). reflexivity.
Qed.

Lemma initialize_thrown_run amb this cause :
  (getScriptDirectory amb this).1.1 = Thrown cause ->
  initialize amb this
  = (Thrown (UnityError "Initialization failed" cause), this,
     [Console "error"
        [JString "Failed to initialize Unity Framework:"; cause]]).
Proof.
  intros Hd.
  destruct (getScriptDirectory_reads amb this) as [Hst Hlog].
  destruct (getScriptDirectory amb this) as [[r st0] l0] eqn:E.
  cbn in Hd, Hst, Hlog. subst r st0 l0.
  unfold initialize, try_catch. rewrite (bind_Thrown _ _ _ _ _ _ E).
  reflexivity.
Qed.

(** X10. When the script directory cannot be determined, [initialize]
    rejects with a [UnityError] wrapping the cause, logs it, and leaves
    the instance exactly as it was: [this.Module] is the object it was,
    no object and no promise is created, no hook is registered. *)
Theorem initialize_fails_at_script_directory amb this cause :
  (getScriptDirectory amb this).1.1 = Thrown cause ->
  let run := initialize amb this in
  run.1.1 = Thrown (UnityError "Initialization failed" cause)
  /\ run.1.2 = this
  /\ registered_hooks run.1.2 = registered_hooks this
  /\ run.2 = [Console "error"
                [JString "Failed to initialize Unity Framework:"; cause]].
Proof.
  intros Hd. cbn zeta. rewrite (initialize_thrown_run amb this cause Hd).
  repeat split.
Qed.

(** Node running the file as an ES module: [__filename] is not
    declared. *)
Lemma initialize_fails_at_script_directory_witness :
  let env := {| isWeb := false; isWorker := false; isNode := true |} in
  let run := initialize node_module (fresh_loader env) in
  detectEnvironment node_module = Ok env
  /\ run.1.1 = Thrown (UnityError "Initialization failed"
                         (ReferenceError "__filename is not defined"))
  /\ run.1.2 = fresh_loader env.
Proof.
  cbn zeta. split; [reflexivity|].
  pose proof (initialize_fails_at_script_directory node_module
                (fresh_loader {| isWeb := false; isWorker := false;
                                 isNode := true |})
                (ReferenceError "__filename is not defined") eq_refl)
    as (Hr & Hs & _).
  split; [exact Hr|exact Hs].
Defined.

(** The outcome of [initialize] decides whether the script directory was
    found. *)
Lemma initialize_Ok_script_directory amb this :
  (initialize amb this).1.1 = Ok tt ->
  exists dir audio,
    (getScriptDirectory amb this).1.1 = Ok dir
    /\ new_AudioContext amb = Ok audio.
Proof.
  intros H.
  destruct (getScriptDirectory amb this).1.1 as [dir|cause] eqn:Hd.
  - pose proof (initialize_from amb this dir Hd) as E. cbn zeta in E.
    destruct (new_AudioContext amb) as [audio|cause]; [eauto|].
    rewrite E in H. discriminate H.
  - rewrite (initialize_thrown_run amb this cause Hd) in H.
    discriminate H.
Qed.

(** X11. Every successful [initialize], from whatever instance, makes
    [this.Module] a brand-new object: its [preRun] list holds exactly
    the one mount hook, closed over the new object (none in a worker),
    its [postRun] list is empty, its [GL] object closes over it, its
    readiness promise is pending and it carries no settling function.
    The objects that were there keep their hook lists. *)
Theorem initialize_builds_fresh_module amb this :
  (initialize amb this).1.1 = Ok tt ->
  let st := (initialize amb this).1.2 in
  Module_ref st = length (objects this)
  /\ isReady st = true
  /\ (exists o, objects st !! Module_ref st = Some o
                /\ preRun o = Some (if isWorker (environment this) then []
                                    else [MountHook (Module_ref st)])
                /\ postRun o = Some []
                /\ GL o = Some (Module_ref st)
                /\ is_Some (WEBAudio o))
  /\ ready_state st = Some Pending
  /\ ready_handles st = (None, None)
  /\ (forall i o', objects this !! i = Some o' ->
        exists o'', objects st !! i = Some o'' /\ preRun o'' = preRun o').
Proof.
  intros H. cbn zeta.
  destruct (initialize_Ok_script_directory amb this H) as (dir & audio & Hd & Ha).
  pose proof (initialize_from amb this dir Hd) as E. cbn zeta in E.
  rewrite Ha in E. rewrite E. cbn [fst snd Module_ref isReady objects promises].
  set (stored := alter _ _ _).
  assert (forall x, (stored ++ [x]) !! length (objects this) = Some x) as Hlook
      by (intros; apply lookup_created).
  split; [reflexivity|]. split; [reflexivity|].
  split; [|split; [|split]].
  - eexists. split; [apply Hlook|]. cbn. repeat split. eauto.
  - unfold ready_state. cbn [objects promises Module_ref].
    rewrite Hlook. cbn. apply list_lookup_middle. reflexivity.
  - unfold ready_handles. cbn [objects promises Module_ref].
    rewrite Hlook. reflexivity.
  - intros i o' Ho'. pose proof (lookup_lt_Some _ _ _ Ho') as Hlt.
    rewrite lookup_app_l by (unfold stored; now rewrite length_alter).
    unfold stored. rewrite list_lookup_alter.
    destruct (decide (Module_ref this = i)) as [->|Hne].
    + rewrite Ho'. cbn. eexists. split; reflexivity.
    + rewrite Ho'. eexists. split; reflexivity.
Qed.

(** A second [initialize] on a page: the Module of the first run, at
    reference 1, is replaced by a new one at reference 2 with one hook. *)
Lemma initialize_builds_fresh_module_witness :
  let first := (initialize page (fresh_loader page_environment)).1.2 in
  let st := (initialize page first).1.2 in
  Module_ref first = 1%nat
  /\ Module_ref st = 2%nat
  /\ (preRun <$> objects st !! 2%nat) = Some (Some [MountHook 2])
  /\ (preRun <$> objects st !! 1%nat) = Some (Some [MountHook 1]).
Proof.
  cbn zeta.
  pose proof (initialize_builds_fresh_module page
                (initialize page (fresh_loader page_environment)).1.2 eq_refl)
    as (Hr & _).
  split; [reflexivity|]. split; [exact Hr|]. split; reflexivity.
Defined.

(** X12. A failed [initialize] never clears the ready flag: it keeps the
    value it had, so an instance that was ready stays flagged ready
    after a failed re-initialisation.  The error is always a
    [UnityError] wrapping the cause, and the only event is the
    [console.error] of that cause. *)
Theorem initialize_failure_keeps_ready_flag amb this e :
  (initialize amb this).1.1 = Thrown e ->
  isReady (initialize amb this).1.2 = isReady this
  /\ exists cause,
       e = UnityError "Initialization failed" cause
       /\ (initialize amb this).2
          = [Console "error"
               [JString "Failed to initialize Unity Framework:"; cause]].
Proof.
  intros H.
  destruct (getScriptDirectory amb this).1.1 as [dir|cause] eqn:Hd.
  - pose proof (initialize_from amb this dir Hd) as E. cbn zeta in E.
    destruct (new_AudioContext amb) as [audio|cause]; rewrite E in H |- *.
    + discriminate H.
    + injection H as <-. cbn. eauto.
  - rewrite (initialize_thrown_run amb this cause Hd) in H |- *.
    injection H as <-. cbn. eauto.
Qed.

(** A ready instance re-initialised on a page that refuses a further
    audio context. *)
Lemma initialize_failure_keeps_ready_flag_witness :
  let ready := (initialize page (fresh_loader page_environment)).1.2 in
  let run := initialize page_audio_refused ready in
  isReady ready = true
  /\ run.1.1 = Thrown (UnityError "Initialization failed"
                         (JError "NotSupportedError" "too many AudioContexts" None))
  /\ isReady run.1.2 = true.
Proof.
  cbn zeta. split; [reflexivity|]. split; [reflexivity|].
  exact (proj1 (initialize_failure_keeps_ready_flag page_audio_refused
                  (initialize page (fresh_loader page_environment)).1.2
                  _ eq_refl)).
Defined.

(** X13. [initialize] keeps what is there: the environment descriptor is
    unchanged, the promises of the store stay as they were (at most one
    pending promise is added after them) and no object is removed. *)
Theorem initialize_invariants amb this :
  let st := (initialize amb this).1.2 in
  environment st = environment this
  /\ (promises st = promises this \/ promises st = promises this ++ [Pending])
  /\ (length (objects this) <= length (objects st))%nat.
Proof.
  cbn zeta.
  destruct (getScriptDirectory amb this).1.1 as [dir|cause] eqn:Hd.
  - pose proof (initialize_from amb this dir Hd) as E. cbn zeta in E.
    destruct (new_AudioContext amb) as [audio|cause]; rewrite E; cbn;
      (split; [reflexivity|]); (split; [now right|]);
      rewrite length_app, length_alter; lia.
  - rewrite (initialize_thrown_run amb this cause Hd). cbn.
    split; [reflexivity|]. split; [now left|]. lia.
Qed.

(** X14. [createModule] stores the two settling functions of the new
    readiness promise on the object [this.Module] refers to when it
    runs, and builds a new object that carries none: once [this.Module]
    is assigned the returned reference, no settling function is
    reachable from it.  The promise is pending, the other objects are
    untouched, and [createModule] itself does not reassign
    [this.Module]. *)
Theorem createModule_stores_handles_on_current_object dir this o :
  objects this !! Module_ref this = Some o ->
  let n := length (objects this) in
  let pid := length (promises this) in
  let st := (createModule dir this).1.2 in
  (createModule dir this).1.1 = Ok n
  /\ n <> Module_ref this
  /\ Module_ref st = Module_ref this
  /\ objects st !! Module_ref this = Some (store_handles pid o)
  /\ objects st !! n = Some (new_module pid dir)
  /\ promises st !! pid = Some Pending
  /\ ready_handles st = (Some pid, Some pid)
  /\ ready_handles (set_Module_ref n st) = (None, None)
  /\ ready_state (set_Module_ref n st) = Some Pending
  /\ (forall i, i <> Module_ref this -> (i < n)%nat ->
                objects st !! i = objects this !! i).
Proof.
  intros Ho. cbn zeta. rewrite createModule_run.
  cbn [fst snd objects promises Module_ref].
  pose proof (lookup_lt_Some _ _ _ Ho) as Hlt.
  set (pid := length (promises this)).
  set (stored := alter (store_handles pid) (Module_ref this) (objects this)).
  assert (length stored = length (objects this)) as Hlen
      by (unfold stored; apply length_alter).
  assert (stored !! Module_ref this = Some (store_handles pid o)) as Hold
      by (unfold stored; rewrite list_lookup_alter_eq, Ho; reflexivity).
  assert (forall x, (stored ++ [x]) !! length (objects this) = Some x) as Hnew
      by (intros; apply lookup_created).
  split; [reflexivity|]. split; [lia|]. split; [reflexivity|].
  split; [now apply lookup_app_l_Some|]. split; [apply Hnew|].
  split; [now apply list_lookup_middle|].
  split; [|split; [|split]].
  - unfold ready_handles. cbn [objects Module_ref].
    rewrite (lookup_app_l_Some _ _ _ _ Hold). reflexivity.
  - unfold ready_handles, set_Module_ref. cbn [objects Module_ref].
    rewrite Hnew. reflexivity.
  - unfold ready_state, set_Module_ref. cbn [objects promises Module_ref].
    rewrite Hnew. cbn. now apply list_lookup_middle.
  - intros i Hne Hi. rewrite lookup_app_l by lia.
    unfold stored. now rewrite list_lookup_alter_ne.
Qed.

Lemma createModule_stores_handles_on_current_object_witness :
  let st := (createModule (JString "/Build/")
               (fresh_loader page_environment)).1.2 in
  ready_handles st = (Some 0%nat, Some 0%nat)
  /\ ready_handles (set_Module_ref 1 st) = (None, None)
  /\ ready_state (set_Module_ref 1 st) = Some Pending.
Proof.
  pose proof (createModule_stores_handles_on_current_object (JString "/Build/")
                (fresh_loader page_environment) empty_object eq_refl)
    as (_ & _ & _ & _ & _ & _ & H1 & H2 & H3 & _).
  repeat split; assumption.
Defined.

(** X15. Outside a worker, [setupFilesystem] appends one mount hook to
    the [preRun] list of [this.Module] and keeps the hooks already
    there, in order; nothing else of the instance changes.  It is not
    idempotent: a second call appends a second hook. *)
Theorem setupFilesystem_appends_hook this o hooks :
  isWorker (environment this) = false ->
  objects this !! Module_ref this = Some o ->
  preRun o = Some hooks ->
  let r := Module_ref this in
  let st := (setupFilesystem this).1.2 in
  let st2 := (setupFilesystem st).1.2 in
  (setupFilesystem this).1.1 = Ok tt
  /\ objects st !! r = Some (with_preRun (hooks ++ [MountHook r]) o)
  /\ (forall i, i <> r -> objects st !! i = objects this !! i)
  /\ (promises st, Module_ref st, isReady st, environment st)
     = (promises this, r, isReady this, environment this)
  /\ (preRun <$> objects st2 !! r)
     = Some (Some (hooks ++ [MountHook r; MountHook r])).
Proof.
  intros Hw Ho Hp. cbn zeta.
  pose proof (lookup_lt_Some _ _ _ Ho) as Hlt.
  rewrite (setupFilesystem_run this o hooks Hw Ho Hp).
  cbn [fst snd set_objects objects promises Module_ref isReady environment].
  split; [reflexivity|].
  split; [now apply list_lookup_insert_eq|].
  split; [intros i Hne; now apply list_lookup_insert_ne|].
  split; [reflexivity|].
  erewrite setupFilesystem_run;
    [|exact Hw|cbn; now apply list_lookup_insert_eq|reflexivity].
  cbn [fst snd set_objects objects promises Module_ref isReady environment].
  rewrite list_lookup_insert_eq by (rewrite length_insert; exact Hlt).
  cbn. now rewrite <- app_assoc.
Qed.

Lemma setupFilesystem_appends_hook_witness :
  let this := set_Module_ref 1
                (createModule (JString "/Build/")
                   (fresh_loader page_environment)).1.2 in
  (preRun <$> objects (setupFilesystem this).1.2 !! 1%nat)
  = Some (Some [MountHook 1])
  /\ (preRun <$> objects (setupFilesystem (setupFilesystem this).1.2).1.2 !! 1%nat)
     = Some (Some [MountHook 1; MountHook 1]).
Proof.
  pose proof (setupFilesystem_appends_hook
                (set_Module_ref 1
                   (createModule (JString "/Build/")
                      (fresh_loader page_environment)).1.2)
                (new_module 0 (JString "/Build/")) []
                eq_refl eq_refl eq_refl) as (_ & H1 & _ & _ & H2).
  split; [reflexivity|exact H2].
Defined.

(** X16. Outside a worker, [setupFilesystem] on an instance whose
    [Module] has no [preRun] list (the [{}] of the constructor, before
    [createModule]) throws a [TypeError] and changes nothing. *)
Theorem setupFilesystem_without_preRun this o :
  isWorker (environment this) = false ->
  objects this !! Module_ref this = Some o ->
  preRun o = None ->
  setupFilesystem this
  = (Thrown (TypeError "Cannot read properties of undefined (reading 'push')"),
     this, []).
Proof.
  intros Hw Ho Hp. unfold setupFilesystem. unfold bind at 1. unfold get.
  cbn beta iota. rewrite Hw. cbn [negb].
  unfold push_preRun, bind, get, throw. cbn. rewrite Ho, Hp. reflexivity.
Qed.

Lemma setupFilesystem_without_preRun_witness :
  setupFilesystem (fresh_loader page_environment)
  = (Thrown (TypeError "Cannot read properties of undefined (reading 'push')"),
     fresh_loader page_environment, []).
Proof.
  exact (setupFilesystem_without_preRun (fresh_loader page_environment)
           empty_object eq_refl eq_refl eq_refl).
Defined.

(** X17. The prefixed audio class is a fallback on a falsy
    [window.AudioContext] only.  On a page whose [window] has no truthy
    [AudioContext] but a [webkitAudioContext] class, [initialize]
    completes and stores an instance of that class; when
    [window.AudioContext] is truthy and its construction throws,
    [initialize] is rejected with that cause even though
    [webkitAudioContext] could be constructed. *)
Theorem initialize_audio_fallback amb this props dir :
  window amb = Some (JObject props) ->
  (getScriptDirectory amb this).1.1 = Ok dir ->
  (forall name,
     truthy (lookup_prop "AudioContext" props) = false ->
     lookup_prop "webkitAudioContext" props = JFunction (Class name) ->
     (initialize amb this).1.1 = Ok tt
     /\ exists o, objects (initialize amb this).1.2
                    !! Module_ref (initialize amb this).1.2 = Some o
                  /\ WEBAudio o
                     = Some (JObject [("constructor", JString name)]))
  /\ (forall name message,
        lookup_prop "AudioContext" props
        = JFunction (ThrowingClass name message) ->
        (initialize amb this).1.1
        = Thrown (UnityError "Initialization failed"
                    (JError name message None))).
Proof.
  intros Hwin Hd.
  pose proof (initialize_from amb this dir Hd) as E. cbn zeta in E.
  split.
  - intros name Hfalsy Hweb.
    assert (new_AudioContext amb
            = Ok (JObject [("constructor", JString name)])) as Ha.
    { unfold new_AudioContext. rewrite Hwin. cbn. rewrite Hfalsy, Hweb.
      reflexivity. }
    rewrite Ha in E. rewrite E. cbn [fst snd objects Module_ref].
    split; [reflexivity|]. eexists. split; [apply lookup_created|reflexivity].
  - intros name message Hstd.
    assert (new_AudioContext amb = Thrown (JError name message None)) as Ha.
    { unfold new_AudioContext. rewrite Hwin. cbn. rewrite Hstd. reflexivity. }
    rewrite Ha in E. now rewrite E.
Qed.

Lemma initialize_audio_fallback_witness :
  let run := initialize webkit_page (fresh_loader page_environment) in
  run.1.1 = Ok tt
  /\ exists o, objects run.1.2 !! Module_ref run.1.2 = Some o
               /\ WEBAudio o
                  = Some (JObject [("constructor", JString "webkitAudioContext")]).
Proof.
  exact (proj1 (initialize_audio_fallback webkit_page
                  (fresh_loader page_environment) _ (JString EmptyString)
                  eq_refl eq_refl)
           "webkitAudioContext" eq_refl eq_refl).
Defined.

(** X18. [detectEnvironment] throws exactly when [process] is [null] or
    is an object whose [versions] is [null]: [typeof null] is
    ["object"], so the test passes and the property read that follows
    throws.  On every other host it returns the three flags. *)
Theorem detectEnvironment_throws_iff amb :
  (exists e, detectEnvironment amb = Thrown e)
  <-> (process amb = Some JNull
       \/ exists props, process amb = Some (JObject props)
                        /\ lookup_prop "versions" props = JNull).
Proof.
  unfold detectEnvironment. split.
  - intros [e H].
    destruct (process amb) as [[| | | | | | |props| |]|]; cbn in H;
      try discriminate H; [now left|].
    right. exists props. split; [reflexivity|].
    destruct (lookup_prop "versions" props); cbn in H;
      try discriminate H; reflexivity.
  - intros [->|(props & -> & Hv)]; cbn.
    + eauto.
    + rewrite Hv. cbn. eauto.
Qed.

(** X19. [createContext] returns a context exactly when
    [canvas.getContext("webgl", attributes)] returns a truthy value, and
    then returns that value; an exception of [getContext] is propagated
    unchanged.  Only the type ["webgl"] is ever requested: two canvases
    that answer alike for ["webgl"] give the same result, whatever they
    offer under another name. *)
Theorem createContext_result canvas attributes :
  (forall ctx, createContext canvas attributes = Ok ctx
               <-> getContext canvas "webgl" attributes = Ok ctx
                   /\ truthy ctx = true)
  /\ (forall e, getContext canvas "webgl" attributes = Thrown e ->
                createContext canvas attributes = Thrown e)
  /\ (forall canvas',
        getContext canvas' "webgl" attributes
        = getContext canvas "webgl" attributes ->
        createContext canvas' attributes = createContext canvas attributes).
Proof.
  unfold createContext. split; [|split].
  - intros ctx.
    destruct (getContext canvas "webgl" attributes) as [c|e];
      [|split; [discriminate|intros [H _]; discriminate H]].
    destruct (truthy c) eqn:Ht; cbn; split.
    + intros [= <-]. auto.
    + intros [[= <-] _]. reflexivity.
    + discriminate.
    + intros [[= <-] Ht']. congruence.
  - intros e ->. reflexivity.
  - intros canvas' ->. reflexivity.
Qed.

(** A canvas that only offers the legacy context name gets no context:
    [createContext] does not try another name. *)
Example createContext_legacy_canvas :
  createContext legacy_canvas JUndefined
  = Thrown (Error "WebGL context creation failed").
Proof. reflexivity. Qed.

(** With [process] set to [null] the constructor itself throws. *)
Example new_UnityFramework_null_process :
  new_UnityFramework null_process
  = Thrown (TypeError "Cannot read properties of null (reading 'versions')").
Proof. reflexivity. Qed.
